(** * Backend: an authenticated task-tracking service (server.js)

    A shallow embedding of the Express application of [server.js]: the two
    Mongoose collections are finite maps keyed by [_id], every route handler
    is a state-passing function over that store, and the three libraries the
    handlers call into (bcryptjs, jsonwebtoken, mongoose/bson) appear as
    interfaces with the laws the proofs rely on. *)

From Stdlib Require Import ZArith String Ascii List Lia.
From stdpp Require Import base option list gmap fin_maps strings pretty.

Local Open Scope string_scope.
Local Open Scope Z_scope.

(** ** JSON values of a request body *)

(** The scalar values [express.json()] can place under a key of [req.body];
    [JUndefined] is what destructuring yields for a key that is absent. *)
Inductive JsValue : Type :=
  | JUndefined
  | JNull
  | JBool (b : bool)
  | JNum (n : Z)
  | JStr (s : string).

(** JavaScript truthiness: [!v] is [negb (truthy v)]. *)
Definition truthy (v : JsValue) : bool :=
  match v with
  | JUndefined | JNull => false
  | JBool b => b
  | JNum n => negb (n =? 0)
  | JStr EmptyString => false
  | JStr (String _ _) => true
  end.

(** ** String.prototype.replace with a string pattern *)

Fixpoint String_drop (n : nat) (s : string) : string :=
  match n, s with
  | O, _ => s
  | S _, EmptyString => EmptyString
  | S n', String _ s' => String_drop n' s'
  end.

(** [s.replace(pat, rep)]: only the first occurrence of [pat] is replaced. *)
Fixpoint String_replace (pat rep s : string) : string :=
  if String.prefix pat s then rep ++ String_drop (String.length pat) s
  else match s with
       | EmptyString => EmptyString
       | String c s' => String c (String_replace pat rep s')
       end.

Fixpoint has_space (s : string) : bool :=
  match s with
  | EmptyString => false
  | String c s' => if Ascii.eqb c " "%char then true else has_space s'
  end.

(** ** Documents *)

(** A BSON ObjectId, as a number. *)
Abbreviation ObjectId := N (only parsing).

(** [UserSchema] *)
Record User : Type := mkUser {
  username : string;
  password : string
}.

(** [TaskSchema]; [completionDate] is a Date, in milliseconds since the epoch. *)
Record Task : Type := mkTask {
  title : string;
  status : string;
  completionDate : Z;
  userId : ObjectId
}.

(** A stored document: its [_id] and its schema fields. *)
Abbreviation UserDoc := (ObjectId * User)%type (only parsing).
Abbreviation TaskDoc := (ObjectId * Task)%type (only parsing).

(** ** Library interfaces *)

(** bcryptjs: [hashpw salt rounds s] is the digest [bcrypt.hash] resolves to
    once it has drawn [salt]; [checkpw s digest] is what [bcrypt.compare]
    resolves to. A digest is never empty and never the string it was
    computed from. *)
Class Bcrypt : Type := {
  hashpw : string -> N -> string -> string;
  checkpw : string -> string -> bool;
  hashpw_nonempty : forall salt rounds s, hashpw salt rounds s <> EmptyString;
  hashpw_not_plain : forall salt rounds s, hashpw salt rounds s <> s
}.

(** The payload of the tokens this service signs: [{ userId, iat, exp }],
    the two dates in seconds since the epoch. *)
Record Claims : Type := mkClaims {
  claim_userId : ObjectId;
  iat : Z;
  exp : Z
}.

(** jsonwebtoken's signed compact serialisation under a secret. Signing
    needs a secret that is not empty. Decoding checks the signature and
    parses the payload; it gives back what was signed, and a token that
    decodes has no blank in it (base64url segments joined by dots). *)
Class Jws : Type := {
  jws_encode : string -> Claims -> option string;
  jws_decode : string -> string -> option Claims;
  jws_encode_secret : forall key c,
    key <> EmptyString -> is_Some (jws_encode key c);
  jws_decode_encode : forall key c tok,
    jws_encode key c = Some tok -> jws_decode key tok = Some c;
  jws_decode_shape : forall key tok c,
    jws_decode key tok = Some c -> tok <> EmptyString /\ has_space tok = false
}.

(** mongoose/bson casts whose outcome depends on the library version or on
    the JavaScript engine: a route parameter to an ObjectId, and what the
    Date cast makes of a non-empty string (the time value, if it is one). *)
Class Casts : Type := {
  castObjectId : string -> option ObjectId;
  castDateString : string -> option Z
}.

(** [process.env] *)
Class ProcessEnv : Type := {
  JWT_SECRET : string
}.

(** What a request finds around it when it is handled: the clock in whole
    seconds, [Math.floor(Date.now() / 1000)], and the salt [bcrypt.genSalt]
    draws. *)
Record Env : Type := mkEnv {
  now : Z;
  salt : string
}.

(** ** The document store and the effects of a handler *)

(** The two collections, each keyed by [_id], and the ObjectId generator
    shared by [new User(...)] and [new Task(...)]. *)
Record World : Type := mkWorld {
  users : gmap N User;
  tasks : gmap N Task;
  oidCounter : N
}.

Definition set_users (f : gmap N User -> gmap N User) (w : World) : World :=
  mkWorld (f (users w)) (tasks w) (oidCounter w).

Definition set_tasks (f : gmap N Task -> gmap N Task) (w : World) : World :=
  mkWorld (users w) (f (tasks w)) (oidCounter w).

(** What an awaited library call can reject with. *)
Inductive Exn : Type :=
  | CastError
  | ValidationError
  | DuplicateKeyError
  | DocumentNotFoundError
  | TypeError
  | IllegalArguments
  | SignError.

Inductive Outcome (A : Type) : Type :=
  | Returned (a : A)
  | Thrown (e : Exn).
Arguments Returned {A} a.
Arguments Thrown {A} e.

(** An awaited computation: it reads and writes the store and either
    returns or throws; writes made before a throw stay. *)
Definition Db (A : Type) : Type := World -> Outcome A * World.

Definition ret {A} (a : A) : Db A := fun w => (Returned a, w).

Definition throw {A} (e : Exn) : Db A := fun w => (Thrown e, w).

Definition bind {A B} (m : Db A) (k : A -> Db B) : Db B :=
  fun w =>
    match m w with
    | (Returned a, w') => k a w'
    | (Thrown e, w') => (Thrown e, w')
    end.

Declare Scope db_scope.
Delimit Scope db_scope with db.
Notation "'await' x <- m ;; k" := (bind m (fun x => k))
  (at level 10, x name, m at level 99, k at level 200,
   format "'[v' 'await'  x  <-  m  ;; '/' k ']'") : db_scope.
Notation "'await_' m ;; k" := (bind m (fun _ => k))
  (at level 10, m at level 99, k at level 200,
   format "'[v' 'await_'  m  ;; '/' k ']'") : db_scope.

(** ** HTTP requests and responses *)

Inductive Body : Type :=
  | ErrorBody (error : string)
  | MessageBody (message : string)
  | TokenBody (token : string)
  | TaskBody (message : string) (task : N * Task)
  | TasksBody (listed : list (N * Task)).

(** [res.status(code).json(body)] *)
Record Response : Type := mkResponse {
  statusCode : nat;
  json : Body
}.

Record Request : Type := mkRequest {
  authorization : option string;
  params_id : string;
  body : gmap string JsValue;
  user : option Claims
}.

(** Destructuring a key out of [req.body]. *)
Definition field (req : Request) (key : string) : JsValue :=
  default JUndefined (body req !! key).

Definition set_user (req : Request) (u : Claims) : Request :=
  mkRequest (authorization req) (params_id req) (body req) (Some u).

(** A route handler once its promise has settled: the response it sent and
    the store it left. *)
Definition Handler : Type := World -> Response * World.

(** [return res.status(code).json(body)] before any awaited call. *)
Definition reply (code : nat) (b : Body) : Handler :=
  fun w => (mkResponse code b, w).

(** [try { ... } catch (err) { res.status(500).json({ error }) }] *)
Definition try_catch (block : Db Response) (error : string) : Handler :=
  fun w =>
    match block w with
    | (Returned r, w') => (r, w')
    | (Thrown _, w') => (mkResponse 500 (ErrorBody error), w')
    end.

(** ** Mongoose: schema casts, documents and model operations *)

(** The String schema type applied to a scalar: [null] and [undefined] stay
    empty, anything else goes through [toString()]. *)
Definition castString (v : JsValue) : option string :=
  match v with
  | JUndefined | JNull => None
  | JBool b => Some (if b then "true" else "false")
  | JNum n => Some (pretty n)
  | JStr s => Some s
  end.

(** A [required: true] String path: the cast value must be a non-empty string. *)
Definition requiredString (v : JsValue) : option string :=
  match castString v with
  | Some (String c s) => Some (String c s)
  | _ => None
  end.

(** The largest time value of a JavaScript Date, in milliseconds either side
    of the epoch. *)
Definition max_time_value : Z := 8640000000000000.

(** A [required: true] Date path: booleans are refused, a number is a time
    value, a string is handed to the Date constructor. *)
Definition requiredDate `{Casts} (v : JsValue) : option Z :=
  match v with
  | JUndefined | JNull | JBool _ => None
  | JNum n => if Z.abs n <=? max_time_value then Some n else None
  | JStr EmptyString => None
  | JStr s => castDateString s
  end.

(** A document in memory: [fields] is [None] when a path failed its cast or
    its [required] validator, which [save()] reports. *)
Record Document (D : Type) : Type := mkDocument {
  _id : N;
  isNew : bool;
  fields : option D
}.
Arguments mkDocument {D} _ _ _.
Arguments _id {D} _.
Arguments isNew {D} _.
Arguments fields {D} _.

(** [new Model(obj)]: the document receives its [_id] from the generator. *)
Definition Model_new {D} (obj : option D) : Db (Document D) :=
  fun w =>
    (Returned (mkDocument (oidCounter w) true obj),
     mkWorld (users w) (tasks w) (N.succ (oidCounter w))).

Definition User_cast (v_username v_password : JsValue) : option User :=
  match requiredString v_username, requiredString v_password with
  | Some u, Some p => Some (mkUser u p)
  | _, _ => None
  end.

Definition Task_cast `{Casts} (v_title v_status v_completionDate : JsValue)
    (uid : N) : option Task :=
  match requiredString v_title, requiredString v_status,
        requiredDate v_completionDate with
  | Some t, Some s, Some d => Some (mkTask t s d uid)
  | _, _, _ => None
  end.

(** The first user document carrying a username, in the store's order. *)
Definition find_username (name : string) (m : gmap N User) : option (N * User) :=
  head (filter (fun d : N * User => username d.2 = name) (map_to_list m)).

(** [User.findOne({ username })] *)
Definition User_findOne (v_username : JsValue) : Db (option (N * User)) :=
  fun w =>
    (Returned match castString v_username with
              | Some name => find_username name (users w)
              | None => None
              end, w).

(** [doc.save()] on a User: validation, then an insert under the unique
    indexes on [_id] and [username], or an update by [_id]. *)
Definition User_save (doc : Document User) : Db (N * User) :=
  fun w =>
    match fields doc with
    | None => (Thrown ValidationError, w)
    | Some u =>
        if isNew doc then
          match users w !! _id doc, find_username (username u) (users w) with
          | None, None => (Returned (_id doc, u), set_users (insert (_id doc) u) w)
          | _, _ => (Thrown DuplicateKeyError, w)
          end
        else
          match users w !! _id doc with
          | Some _ => (Returned (_id doc, u), set_users (insert (_id doc) u) w)
          | None => (Thrown DocumentNotFoundError, w)
          end
    end.

(** [doc.save()] on a Task. *)
Definition Task_save (doc : Document Task) : Db (N * Task) :=
  fun w =>
    match fields doc with
    | None => (Thrown ValidationError, w)
    | Some t =>
        if isNew doc then
          match tasks w !! _id doc with
          | None => (Returned (_id doc, t), set_tasks (insert (_id doc) t) w)
          | Some _ => (Thrown DuplicateKeyError, w)
          end
        else
          match tasks w !! _id doc with
          | Some _ => (Returned (_id doc, t), set_tasks (insert (_id doc) t) w)
          | None => (Thrown DocumentNotFoundError, w)
          end
    end.

(** [Task.find({ userId })], in the store's own order. *)
Definition Task_find (uid : N) : Db (list (N * Task)) :=
  fun w =>
    (Returned (filter (fun d : N * Task => userId d.2 = uid) (map_to_list (tasks w))), w).

(** [Task.findOne({ _id: id, userId })] *)
Definition Task_findOne `{Casts} (id : string) (uid : N) : Db (option (Document Task)) :=
  fun w =>
    match castObjectId id with
    | None => (Thrown CastError, w)
    | Some oid =>
        (Returned match tasks w !! oid with
                  | Some t =>
                      if decide (userId t = uid)
                      then Some (mkDocument oid false (Some t))
                      else None
                  | None => None
                  end, w)
    end.

(** [Task.deleteOne({ _id: id })] *)
Definition Task_deleteOne `{Casts} (id : string) : Db unit :=
  fun w =>
    match castObjectId id with
    | None => (Thrown CastError, w)
    | Some oid => (Returned tt, set_tasks (delete oid) w)
    end.

(** [task.title = title; task.status = status; task.completionDate = ...]
    on a loaded document: the three paths are cast again, the owner stays. *)
Definition Task_assign `{Casts} (doc : Document Task)
    (v_title v_status v_completionDate : JsValue) : Document Task :=
  mkDocument (_id doc) (isNew doc)
    match fields doc with
    | Some t => Task_cast v_title v_status v_completionDate (userId t)
    | None => None
    end.

(** ** bcryptjs and jsonwebtoken as the handlers call them *)

(** [bcrypt.hash(s, rounds)]: rejects unless [s] is a string. *)
Definition bcrypt_hash `{Bcrypt} (env : Env) (s : JsValue) (rounds : N) : Db string :=
  match s with
  | JStr p => ret (hashpw (salt env) rounds p)
  | _ => throw IllegalArguments
  end.

(** [bcrypt.compare(s, hash)]: rejects unless [s] is a string. *)
Definition bcrypt_compare `{Bcrypt} (s : JsValue) (hash : string) : Db bool :=
  match s with
  | JStr p => ret (checkpw p hash)
  | _ => throw IllegalArguments
  end.

(** ['1h'] as a span of the token clock. *)
Definition one_hour : Z := 3600.

(** [jwt.sign({ userId }, secret, { expiresIn })]: [iat] is the clock at
    signing and [exp] lies [expiresIn] after it. *)
Definition jwt_sign `{Jws} (env : Env) (uid : N) (secret : string) (expiresIn : Z)
    : Db string :=
  match jws_encode secret (mkClaims uid (now env) (now env + expiresIn)) with
  | Some token => ret token
  | None => throw SignError
  end.

Inductive VerifyError : Type :=
  | JsonWebTokenError
  | TokenExpiredError.

(** [jwt.verify(token, secret, callback)]: the callback receives an error
    for a token that does not decode under the secret or whose [exp] the
    clock has reached, and the payload otherwise. *)
Definition jwt_verify `{Jws} (env : Env) (token secret : string) : VerifyError + Claims :=
  match jws_decode secret token with
  | None => inl JsonWebTokenError
  | Some c => if exp c <=? now env then inl TokenExpiredError else inr c
  end.

(** ** The application: middleware and routes *)

Section App.
Context `{Bcrypt} `{Jws} `{Casts} `{ProcessEnv}.

Local Open Scope db_scope.

(** [req.user], read inside a [try] block. *)
Definition req_user (req : Request) : Db Claims :=
  match user req with
  | Some u => ret u
  | None => throw TypeError
  end.

(** [const authenticateJWT = (req, res, next) => ...] *)
Definition authenticateJWT (env : Env) (next : Request -> Handler) (req : Request)
    : Handler :=
  let token := String_replace "Bearer " EmptyString <$> authorization req in
  match token with
  | None | Some EmptyString =>
      reply 401 (ErrorBody "Authentication required")
  | Some token =>
      match jwt_verify env token JWT_SECRET with
      | inl err => reply 403 (ErrorBody "Invalid or expired token")
      | inr user => next (set_user req user)
      end
  end.

(** [app.post('/register', ...)] *)
Definition post_register (env : Env) (req : Request) : Handler :=
  let username := field req "username" in
  let password := field req "password" in
  if negb (truthy username) || negb (truthy password) then
    reply 400 (ErrorBody "Please provide both username and password")
  else
    try_catch
      (await existingUser <- User_findOne username ;;
       if existingUser is Some _ then
         ret (mkResponse 400 (ErrorBody "Username already exists"))
       else
         await hashedPassword <- bcrypt_hash env password 10 ;;
         await newUser <- Model_new (User_cast username (JStr hashedPassword)) ;;
         await_ User_save newUser ;;
         ret (mkResponse 201 (MessageBody "Registration successful!")))
      "An error occurred during registration".

(** [app.post('/login', ...)] *)
Definition post_login (env : Env) (req : Request) : Handler :=
  let username := field req "username" in
  let password := field req "password" in
  if negb (truthy username) || negb (truthy password) then
    reply 400 (ErrorBody "Please provide both username and password")
  else
    try_catch
      (await user <- User_findOne username ;;
       match user with
       | None => ret (mkResponse 400 (ErrorBody "Invalid username or password"))
       | Some (user_id, mkUser _ user_password) =>
           await isPasswordCorrect <- bcrypt_compare password user_password ;;
           if negb isPasswordCorrect then
             ret (mkResponse 400 (ErrorBody "Invalid username or password"))
           else
             await token <- jwt_sign env user_id JWT_SECRET one_hour ;;
             ret (mkResponse 200 (TokenBody token))
       end)
      "An error occurred during login".

(** [app.post('/tasks', authenticateJWT, ...)], after the middleware. *)
Definition post_tasks (req : Request) : Handler :=
  let title := field req "title" in
  let status := field req "status" in
  let completionDate := field req "completionDate" in
  if negb (truthy title) || negb (truthy status) || negb (truthy completionDate) then
    reply 400 (ErrorBody "Please provide all fields")
  else
    try_catch
      (await user <- req_user req ;;
       await newTask <- Model_new (Task_cast title status completionDate (claim_userId user)) ;;
       await saved <- Task_save newTask ;;
       ret (mkResponse 201 (TaskBody "Task added successfully" saved)))
      "An error occurred while adding the task".

(** [app.get('/tasks', authenticateJWT, ...)], after the middleware. *)
Definition get_tasks (req : Request) : Handler :=
  try_catch
    (await user <- req_user req ;;
     await tasks <- Task_find (claim_userId user) ;;
     ret (mkResponse 200 (TasksBody tasks)))
    "Failed to fetch tasks".

(** [app.delete('/tasks/:id', authenticateJWT, ...)], after the middleware. *)
Definition delete_tasks_id (req : Request) : Handler :=
  let id := params_id req in
  try_catch
    (await user <- req_user req ;;
     await task <- Task_findOne id (claim_userId user) ;;
     match task with
     | None =>
         ret (mkResponse 404 (ErrorBody "Task not found or not authorized to delete it"))
     | Some _ =>
         await_ Task_deleteOne id ;;
         ret (mkResponse 200 (MessageBody "Task deleted successfully"))
     end)
    "An error occurred while deleting the task".

(** [app.put('/tasks/:id', authenticateJWT, ...)], after the middleware. *)
Definition put_tasks_id (req : Request) : Handler :=
  let id := params_id req in
  let title := field req "title" in
  let status := field req "status" in
  let completionDate := field req "completionDate" in
  if negb (truthy title) || negb (truthy status) || negb (truthy completionDate) then
    reply 400 (ErrorBody "Please provide all fields")
  else
    try_catch
      (await user <- req_user req ;;
       await task <- Task_findOne id (claim_userId user) ;;
       match task with
       | None =>
           ret (mkResponse 404 (ErrorBody "Task not found or not authorized to update it"))
       | Some task =>
           let task := Task_assign task title status completionDate in
           await saved <- Task_save task ;;
           ret (mkResponse 200 (TaskBody "Task updated successfully" saved))
       end)
      "An error occurred while updating the task".

(** The routes the application registers. *)
Inductive Route : Type :=
  | POST_register
  | POST_login
  | POST_tasks
  | GET_tasks
  | DELETE_tasks_id
  | PUT_tasks_id.

(** The handler chain registered for a task route, behind the middleware. *)
Definition task_handler (r : Route) : option (Request -> Handler) :=
  match r with
  | POST_tasks => Some post_tasks
  | GET_tasks => Some get_tasks
  | DELETE_tasks_id => Some delete_tasks_id
  | PUT_tasks_id => Some put_tasks_id
  | POST_register | POST_login => None
  end.

(** What the application does with a request to a route. *)
Definition app (r : Route) (env : Env) (req : Request) : Handler :=
  match r with
  | POST_register => post_register env req
  | POST_login => post_login env req
  | POST_tasks => authenticateJWT env post_tasks req
  | GET_tasks => authenticateJWT env get_tasks req
  | DELETE_tasks_id => authenticateJWT env delete_tasks_id req
  | PUT_tasks_id => authenticateJWT env put_tasks_id req
  end.

End App.

(** ** Vocabulary of the properties *)

Section Vocabulary.
Context `{Jws} `{ProcessEnv}.

(** The request carries a header from which the middleware extracts a
    token that [jwt.verify] accepts, with payload [u], at the clock of [env]. *)
Definition authenticated (env : Env) (req : Request) (u : Claims) : Prop :=
  exists header,
    authorization req = Some header /\
    String_replace "Bearer " EmptyString header <> EmptyString /\
    jwt_verify env (String_replace "Bearer " EmptyString header) JWT_SECRET = inr u.

(** The three body fields of a task are all truthy. *)
Definition all_fields (req : Request) : bool :=
  truthy (field req "title") && truthy (field req "status")
  && truthy (field req "completionDate").

(** The tasks [Task.find({ userId: uid })] lists in a store. *)
Definition listed_for (uid : N) (m : gmap N Task) : list (N * Task) :=
  filter (fun d : N * Task => userId d.2 = uid) (map_to_list m).

(** Every [_id] in the store was drawn from the generator. *)
Definition World_ok (w : World) : Prop :=
  (forall k, is_Some (users w !! k) -> (k < oidCounter w)%N) /\
  (forall k, is_Some (tasks w !! k) -> (k < oidCounter w)%N).

End Vocabulary.

(** ** The service over a sequence of requests *)

Section Service.
Context `{Bcrypt} `{Jws} `{Casts} `{ProcessEnv}.

(** The store after the application has served the requests one after the
    other. *)
Fixpoint serve (reqs : list (Route * Env * Request)) (w : World) : World :=
  match reqs with
  | [] => w
  | (r, env, req) :: rest => serve rest (app r env req w).2
  end.

End Service.

(** No two user documents carry the same username. *)
Definition Usernames_unique (w : World) : Prop :=
  forall k1 k2 u1 u2,
    users w !! k1 = Some u1 -> users w !! k2 = Some u2 ->
    username u1 = username u2 -> k1 = k2.

(** ** A reference implementation of the library interfaces

    Small executable stand-ins for the three libraries, used to run the
    application on concrete requests. *)

Module Reference.

(** A digest that keeps the layout [$2a$<rounds>$<salt><hash>] and uses the
    input itself in place of the hash. *)
Definition ref_hashpw (salt : string) (rounds : N) (s : string) : string :=
  "$2a$" ++ pretty rounds ++ "$" ++ salt ++ s.

Definition ends_with (s h : string) : bool :=
  String.eqb (String_drop (String.length h - String.length s) h) s.

Definition ref_checkpw (s h : string) : bool :=
  String.prefix "$2a$" h && ends_with s h.

(** A positive number, least significant bit first, closed by a dot. *)
Fixpoint print_pos (p : positive) : string :=
  match p with
  | xH => "."
  | xO p' => String "0" (print_pos p')
  | xI p' => String "1" (print_pos p')
  end.

Fixpoint parse_pos (s : string) : option (positive * string) :=
  match s with
  | EmptyString => None
  | String c s' =>
      if Ascii.eqb c "."%char then Some (xH, s')
      else if Ascii.eqb c "0"%char then
        match parse_pos s' with
        | Some (p, r) => Some (xO p, r)
        | None => None
        end
      else if Ascii.eqb c "1"%char then
        match parse_pos s' with
        | Some (p, r) => Some (xI p, r)
        | None => None
        end
      else None
  end.

(** The stand-in signature: the length of the secret. *)
Definition ref_signature (key : string) : string :=
  print_pos (Pos.of_succ_nat (String.length key)).

Definition ref_encode (key : string) (c : Claims) : option string :=
  match key with
  | EmptyString => None
  | _ =>
      Some (print_pos (encode (claim_userId c)) ++ print_pos (encode (iat c))
            ++ print_pos (encode (exp c)) ++ ref_signature key)
  end.

Definition ref_decode (key tok : string) : option Claims :=
  match key with
  | EmptyString => None
  | _ =>
      match parse_pos tok with
      | Some (p1, r1) =>
          match parse_pos r1 with
          | Some (p2, r2) =>
              match parse_pos r2 with
              | Some (p3, r3) =>
                  if String.eqb r3 (ref_signature key) then
                    match decode p1, decode p2, decode p3 with
                    | Some u, Some i, Some e => Some (mkClaims u i e)
                    | _, _, _ => None
                    end
                  else None
              | None => None
              end
          | None => None
          end
      | None => None
      end
  end.

Definition hex_digit (c : ascii) : option N :=
  let n := N_of_ascii c in
  if (48 <=? n)%N && (n <=? 57)%N then Some (n - 48)%N
  else if (97 <=? n)%N && (n <=? 102)%N then Some (n - 87)%N
  else if (65 <=? n)%N && (n <=? 70)%N then Some (n - 55)%N
  else None.

Fixpoint parse_hex (acc : N) (s : string) : option N :=
  match s with
  | EmptyString => Some acc
  | String c s' =>
      match hex_digit c with
      | Some d => parse_hex (acc * 16 + d)%N s'
      | None => None
      end
  end.

(** An ObjectId is written as 24 hexadecimal digits. *)
Definition ref_castObjectId (s : string) : option N :=
  if Nat.eqb (String.length s) 24 then parse_hex 0%N s else None.

Definition dec_digit (c : ascii) : option Z :=
  let n := Z.of_N (N_of_ascii c) in
  if (48 <=? n) && (n <=? 57) then Some (n - 48) else None.

(** Days between the epoch and a civil date. *)
Definition days_from_civil (y m d : Z) : Z :=
  let y' := if m <=? 2 then y - 1 else y in
  let era := y' / 400 in
  let yoe := y' - era * 400 in
  let doy := (153 * (if 2 <? m then m - 3 else m + 9) + 2) / 5 + d - 1 in
  let doe := yoe * 365 + yoe / 4 - yoe / 100 + doy in
  era * 146097 + doe - 719468.

(** The date-only form [YYYY-MM-DD], read as midnight UTC. *)
Definition ref_castDateString (s : string) : option Z :=
  match s with
  | String y1 (String y2 (String y3 (String y4 (String "-"
      (String m1 (String m2 (String "-" (String d1 (String d2 EmptyString))))))))) =>
      match dec_digit y1, dec_digit y2, dec_digit y3, dec_digit y4,
            dec_digit m1, dec_digit m2, dec_digit d1, dec_digit d2 with
      | Some a, Some b, Some c, Some d, Some e, Some f, Some g, Some h =>
          let y := 1000 * a + 100 * b + 10 * c + d in
          let m := 10 * e + f in
          let dd := 10 * g + h in
          if (1 <=? m) && (m <=? 12) && (1 <=? dd) && (dd <=? 31)
          then Some (days_from_civil y m dd * 86400000)
          else None
      | _, _, _, _, _, _, _, _ => None
      end
  | _ => None
  end.

End Reference.

(** ** The reference implementation meets the interface laws *)

Module ReferenceLaws.
Import Reference.

Lemma String_length_app (a b : string) :
  String.length (a ++ b) = (String.length a + String.length b)%nat.
Proof. induction a as [|c a IH]; simpl; [reflexivity | now rewrite IH]. Qed.

Lemma ref_hashpw_nonempty salt rounds s : ref_hashpw salt rounds s <> EmptyString.
Proof. unfold ref_hashpw. simpl. discriminate. Qed.

Lemma ref_hashpw_not_plain salt rounds s : ref_hashpw salt rounds s <> s.
Proof.
  unfold ref_hashpw. intros Heq.
  apply (f_equal String.length) in Heq.
  rewrite !String_length_app in Heq. simpl in Heq. lia.
Qed.

Lemma parse_print_pos (p : positive) (r : string) :
  parse_pos (print_pos p ++ r) = Some (p, r).
Proof.
  induction p as [p IH | p IH |]; simpl; try rewrite IH; reflexivity.
Qed.

Lemma has_space_app (a b : string) :
  has_space (a ++ b) = has_space a || has_space b.
Proof.
  induction a as [|c a IH]; simpl; [reflexivity |].
  destruct (Ascii.eqb c " "); [reflexivity | exact IH].
Qed.

Lemma has_space_print_pos (p : positive) : has_space (print_pos p) = false.
Proof. induction p as [p IH | p IH |]; simpl; auto. Qed.

Lemma parse_pos_has_space (s : string) :
  forall p r, parse_pos s = Some (p, r) -> has_space s = has_space r.
Proof.
  induction s as [|c s IH]; intros p r; simpl; [discriminate |].
  destruct (Ascii.eqb_spec c "."%char) as [-> | _].
  { intros [= _ <-]. reflexivity. }
  destruct (Ascii.eqb_spec c "0"%char) as [-> | _].
  { destruct (parse_pos s) as [[q r'] |] eqn:E; [| discriminate].
    intros [= _ <-]. simpl. eapply IH. reflexivity. }
  destruct (Ascii.eqb_spec c "1"%char) as [-> | _]; [| discriminate].
  destruct (parse_pos s) as [[q r'] |] eqn:E; [| discriminate].
  intros [= _ <-]. simpl. eapply IH. reflexivity.
Qed.

Lemma ref_encode_secret key c : key <> EmptyString -> is_Some (ref_encode key c).
Proof. destruct key; [congruence | eauto]. Qed.

Lemma ref_decode_encode key c tok :
  ref_encode key c = Some tok -> ref_decode key tok = Some c.
Proof.
  unfold ref_encode, ref_decode. destruct key as [|k key]; [discriminate |].
  intros [= <-]. rewrite !parse_print_pos, String.eqb_refl, !decode_encode.
  now destruct c.
Qed.

Lemma ref_decode_shape key tok c :
  ref_decode key tok = Some c -> tok <> EmptyString /\ has_space tok = false.
Proof.
  unfold ref_decode. destruct key as [|k key]; [discriminate |].
  destruct (parse_pos tok) as [[p1 r1] |] eqn:E1; [| discriminate].
  destruct (parse_pos r1) as [[p2 r2] |] eqn:E2; [| discriminate].
  destruct (parse_pos r2) as [[p3 r3] |] eqn:E3; [| discriminate].
  destruct (String.eqb_spec r3 (ref_signature (String k key))) as [-> | _];
    [| discriminate].
  intros _. split.
  - intros ->. discriminate.
  - rewrite (parse_pos_has_space _ _ _ E1), (parse_pos_has_space _ _ _ E2),
      (parse_pos_has_space _ _ _ E3).
    apply has_space_print_pos.
Qed.

End ReferenceLaws.

Definition ref_bcrypt : Bcrypt :=
  Build_Bcrypt Reference.ref_hashpw Reference.ref_checkpw
    ReferenceLaws.ref_hashpw_nonempty ReferenceLaws.ref_hashpw_not_plain.

Definition ref_jws : Jws :=
  Build_Jws Reference.ref_encode Reference.ref_decode
    ReferenceLaws.ref_encode_secret ReferenceLaws.ref_decode_encode
    ReferenceLaws.ref_decode_shape.

Definition ref_casts : Casts :=
  Build_Casts Reference.ref_castObjectId Reference.ref_castDateString.

Definition ref_env : ProcessEnv := Build_ProcessEnv "s3cr3t".

(** The store of a freshly started service. *)
Definition empty_world : World := mkWorld ∅ ∅ 0%N.

(** ** A concrete run of the service

    Alice and Bob register and log in at clock 1000; Alice then creates a
    task. The requests and the stores between them are named here. *)

Module Scenario.

Definition run : Route -> Env -> Request -> Handler :=
  @app ref_bcrypt ref_jws ref_casts ref_env.

Definition boot : Env := mkEnv 1000 "NaCl".

Definition json_body (l : list (string * JsValue)) : gmap string JsValue :=
  list_to_map l.

Definition credentials (name pw : string) : Request :=
  mkRequest None EmptyString (json_body [("username", JStr name); ("password", JStr pw)]) None.

Definition alice_signup : Request := credentials "alice" "wonderland".
Definition bob_signup : Request := credentials "bob" "builder".

Definition world_alice : World := (run POST_register boot alice_signup empty_world).2.
Definition world_both : World := (run POST_register boot bob_signup world_alice).2.

Definition token_of (res : Response) : string :=
  match json res with
  | TokenBody token => token
  | _ => EmptyString
  end.

Definition alice_token : string :=
  Eval vm_compute in token_of (run POST_login boot alice_signup world_both).1.
Definition bob_token : string :=
  Eval vm_compute in token_of (run POST_login boot bob_signup world_both).1.

Definition alice_claims : Claims := mkClaims 0 1000 4600.
Definition bob_claims : Claims := mkClaims 1 1000 4600.

Definition with_token (token id : string) (l : list (string * JsValue)) : Request :=
  mkRequest (Some ("Bearer " ++ token)) id (json_body l) None.

Definition task_id : string := "000000000000000000000002".

Definition open_task : list (string * JsValue) :=
  [("title", JStr "x"); ("status", JStr "open"); ("completionDate", JStr "2024-01-01")].
Definition done_task : list (string * JsValue) :=
  [("title", JStr "x"); ("status", JStr "done"); ("completionDate", JStr "2024-01-01")].

Definition alice_post : Request := with_token alice_token EmptyString open_task.
Definition alice_get : Request := with_token alice_token EmptyString [].
Definition alice_put : Request := with_token alice_token task_id done_task.
Definition alice_delete : Request := with_token alice_token task_id [].
Definition bob_put : Request := with_token bob_token task_id done_task.
Definition bob_put_no_body : Request := with_token bob_token task_id [].

(** A body whose three fields are all present, with a boolean as date. *)
Definition alice_post_bool_date : Request :=
  with_token alice_token EmptyString
    [("title", JStr "x"); ("status", JStr "open"); ("completionDate", JBool true)].

(** A registration whose username is the empty string. *)
Definition empty_name_signup : Request := credentials EmptyString "wonderland".

Definition world_task : World := (run POST_tasks boot alice_post world_both).2.

Definition the_task : Task := mkTask "x" "open" 1704067200000 0.

End Scenario.

(** * Properties *)

Section Properties.
Context `{Bcrypt} `{Jws} `{Casts} `{ProcessEnv}.

(** ** Strings *)



Lemma String_replace_Bearer (tok : string) :
  String_replace "Bearer " EmptyString ("Bearer " ++ tok) = tok.
Proof. destruct tok; reflexivity. Qed.

(** ** The middleware *)

Lemma authenticateJWT_401 env next req w :
  String_replace "Bearer " EmptyString <$> authorization req = None \/
  String_replace "Bearer " EmptyString <$> authorization req = Some EmptyString ->
  authenticateJWT env next req w =
    (mkResponse 401 (ErrorBody "Authentication required"), w).
Proof. unfold authenticateJWT. now intros [-> | ->]. Qed.

Lemma authenticateJWT_403 env next req w token err :
  String_replace "Bearer " EmptyString <$> authorization req = Some token ->
  token <> EmptyString ->
  jwt_verify env token JWT_SECRET = inl err ->
  authenticateJWT env next req w =
    (mkResponse 403 (ErrorBody "Invalid or expired token"), w).
Proof.
  unfold authenticateJWT. intros -> Hne Hv.
  destruct token; [congruence |]. now rewrite Hv.
Qed.

Lemma authenticateJWT_next env next req w token u :
  String_replace "Bearer " EmptyString <$> authorization req = Some token ->
  token <> EmptyString ->
  jwt_verify env token JWT_SECRET = inr u ->
  authenticateJWT env next req w = next (set_user req u) w.
Proof.
  unfold authenticateJWT. intros -> Hne Hv.
  destruct token; [congruence |]. now rewrite Hv.
Qed.

Lemma authenticated_next env next req w u :
  authenticated env req u ->
  authenticateJWT env next req w = next (set_user req u) w.
Proof.
  intros (header & Hh & Hne & Hv).
  eapply authenticateJWT_next; eauto. now rewrite Hh.
Qed.

Lemma app_task_route r h env req :
  task_handler r = Some h -> app r env req = authenticateJWT env h req.
Proof. destruct r; simpl; intros [= <-]; reflexivity. Qed.

Lemma jwt_verify_inl env token err :
  jwt_verify env token JWT_SECRET = inl err <->
  (jws_decode JWT_SECRET token = None /\ err = JsonWebTokenError) \/
  (exists c, jws_decode JWT_SECRET token = Some c /\ exp c <= now env /\
             err = TokenExpiredError).
Proof.
  unfold jwt_verify. destruct (jws_decode JWT_SECRET token) as [c |].
  - destruct (Z.leb_spec (exp c) (now env)); split.
    + intros [= <-]. right. eauto.
    + intros [[? _] | (c' & [= <-] & _ & ->)]; [discriminate | reflexivity].
    + discriminate.
    + intros [[? _] | (c' & [= <-] & ? & _)]; [discriminate | lia].
  - split.
    + intros [= <-]. now left.
    + intros [[_ ->] | (c' & ? & _)]; [reflexivity | discriminate].
Qed.

Lemma jwt_verify_inr env token c :
  jwt_verify env token JWT_SECRET = inr c <->
  jws_decode JWT_SECRET token = Some c /\ now env < exp c.
Proof.
  unfold jwt_verify. destruct (jws_decode JWT_SECRET token) as [c' |].
  - destruct (Z.leb_spec (exp c') (now env)); split.
    + discriminate.
    + intros [[= <-] ?]. lia.
    + intros [= <-]. split; [reflexivity | lia].
    + now intros [[= <-] _].
  - split; [discriminate | now intros [? _]].
Qed.

(** ** Claims about the middleware *)

(** C2: on every /tasks route, a request without an Authorization header, or
    whose header leaves an empty token once "Bearer " is removed, is answered
    401; a token that does not decode under the secret or whose expiry the
    clock has reached is answered 403; in both cases the answer and the
    store are the same whatever handler stands behind the middleware. A
    token that verifies hands the request to the route's handler with the
    token's payload as [req.user]. *)
Theorem C2_authentication_gate (r : Route) (h : Request -> Handler)
    (env : Env) (req : Request) (w : World) :
  task_handler r = Some h ->
  let token := String_replace "Bearer " EmptyString <$> authorization req in
  ((authorization req = None \/ token = Some EmptyString) ->
     app r env req w = (mkResponse 401 (ErrorBody "Authentication required"), w) /\
     forall next, authenticateJWT env next req w =
       (mkResponse 401 (ErrorBody "Authentication required"), w)) /\
  (forall tok, token = Some tok -> tok <> EmptyString ->
     (jws_decode JWT_SECRET tok = None \/
      exists c, jws_decode JWT_SECRET tok = Some c /\ exp c <= now env) ->
     app r env req w = (mkResponse 403 (ErrorBody "Invalid or expired token"), w) /\
     forall next, authenticateJWT env next req w =
       (mkResponse 403 (ErrorBody "Invalid or expired token"), w)) /\
  (forall tok c, token = Some tok -> tok <> EmptyString ->
     jws_decode JWT_SECRET tok = Some c -> now env < exp c ->
     app r env req w = h (set_user req c) w /\
     req_user (set_user req c) w = (Returned c, w)).
Proof.
  intros Hr token. rewrite (app_task_route _ _ _ _ Hr).
  split; [| split].
  - intros Hno.
    assert (Hcase : token = None \/ token = Some EmptyString).
    { destruct Hno as [Hnone |]; [left | now right].
      subst token. now rewrite Hnone. }
    split; [| intros next]; now apply authenticateJWT_401.
  - intros tok Htok Hne Hbad.
    assert (Hv : exists err, jwt_verify env tok JWT_SECRET = inl err).
    { destruct Hbad as [Hd | (c & Hd & Hexp)].
      - exists JsonWebTokenError. apply jwt_verify_inl. now left.
      - exists TokenExpiredError. apply jwt_verify_inl. right. eauto. }
    destruct Hv as [err Hv].
    split; [| intros next]; eapply authenticateJWT_403; eauto.
  - intros tok c Htok Hne Hd Hexp.
    split; [| reflexivity].
    eapply authenticateJWT_next; eauto.
    apply jwt_verify_inr. auto.
Qed.

(** C8: the verdict of the middleware on a request is fixed by the header,
    the secret and the clock alone. One verdict serves every store: either a
    response sent back with the store untouched, or a payload handed to the
    next handler; in particular it is the same before and after any user
    document is removed. *)
Theorem C8_verification_ignores_store (env : Env) (req : Request) :
  exists verdict : Response + Claims,
    (forall (next : Request -> Handler) (w : World),
       authenticateJWT env next req w =
         match verdict with
         | inl res => (res, w)
         | inr u => next (set_user req u) w
         end) /\
    (forall (next : Request -> Handler) (w : World) (uid : N),
       authenticateJWT env next req (set_users (delete uid) w) =
         match verdict with
         | inl res => (res, set_users (delete uid) w)
         | inr u => next (set_user req u) (set_users (delete uid) w)
         end) /\
    (forall u, verdict = inr u <->
       exists header,
         authorization req = Some header /\
         String_replace "Bearer " EmptyString header <> EmptyString /\
         jws_decode JWT_SECRET (String_replace "Bearer " EmptyString header) = Some u /\
         now env < exp u).
Proof.
  destruct (authorization req) as [header |] eqn:Hh.
  - destruct (String_replace "Bearer " EmptyString header) as [| c0 tok0] eqn:Htok.
    + exists (inl (mkResponse 401 (ErrorBody "Authentication required"))).
      assert (E : forall next w, authenticateJWT env next req w =
                (mkResponse 401 (ErrorBody "Authentication required"), w)).
      { intros. apply authenticateJWT_401. right. now rewrite Hh; simpl; rewrite Htok. }
      split; [exact E | split; [intros; apply E |]].
      intros u. split; [discriminate |].
      intros (h' & [= <-] & Hne & _). congruence.
    + destruct (jwt_verify env (String c0 tok0) JWT_SECRET) as [err | u] eqn:Hv.
      * exists (inl (mkResponse 403 (ErrorBody "Invalid or expired token"))).
        assert (E : forall next w, authenticateJWT env next req w =
                  (mkResponse 403 (ErrorBody "Invalid or expired token"), w)).
        { intros. eapply authenticateJWT_403; [| | exact Hv]; [| discriminate].
          now rewrite Hh; simpl; rewrite Htok. }
        split; [exact E | split; [intros; apply E |]].
        intros u. split; [discriminate |].
        intros (h' & [= <-] & _ & Hd & Hexp).
        rewrite Htok in Hd.
        assert (Hr : jwt_verify env (String c0 tok0) JWT_SECRET = inr u)
          by (apply jwt_verify_inr; auto).
        congruence.
      * exists (inr u).
        assert (E : forall next w, authenticateJWT env next req w =
                  next (set_user req u) w).
        { intros. eapply authenticateJWT_next; [| | exact Hv]; [| discriminate].
          now rewrite Hh; simpl; rewrite Htok. }
        split; [exact E | split; [intros; apply E |]].
        intros u'. split.
        -- intros [= <-]. exists header. rewrite Htok.
           apply jwt_verify_inr in Hv. destruct Hv. repeat split; auto; discriminate.
        -- intros (h' & [= <-] & _ & Hd & Hexp). rewrite Htok in Hd.
           assert (Hr : jwt_verify env (String c0 tok0) JWT_SECRET = inr u')
             by (apply jwt_verify_inr; auto).
           congruence.
  - exists (inl (mkResponse 401 (ErrorBody "Authentication required"))).
    assert (E : forall next w, authenticateJWT env next req w =
              (mkResponse 401 (ErrorBody "Authentication required"), w)).
    { intros. apply authenticateJWT_401. left. now rewrite Hh. }
    split; [exact E | split; [intros; apply E |]].
    intros u. split; [discriminate |].
    intros (h' & [=] & _).
Qed.


(** ** The store *)

Lemma filter_is_nil {A} (P : A -> Prop) `{forall x, Decision (P x)} (l : list A) :
  (forall x, x ∈ l -> ~ P x) -> filter P l = [].
Proof.
  intros Hall. apply elem_of_nil_inv. intros x Hx.
  apply list_elem_of_filter in Hx. destruct Hx as [HP Hin].
  exact (Hall x Hin HP).
Qed.

Lemma find_username_Some name (m : gmap N User) k u :
  find_username name m = Some (k, u) -> m !! k = Some u /\ username u = name.
Proof.
  unfold find_username. intros Hhd.
  apply head_Some_elem_of, list_elem_of_filter in Hhd.
  destruct Hhd as [Hname Hin]. apply elem_of_map_to_list in Hin. auto.
Qed.

Lemma find_username_None name (m : gmap N User) :
  find_username name m = None <->
  forall k u, m !! k = Some u -> username u <> name.
Proof.
  unfold find_username. rewrite head_None. split.
  - intros Hnil k u Hk Hname.
    eapply (filter_nil_not_elem_of _ _ (k, u)) in Hnil; [| exact Hname].
    apply Hnil. now apply elem_of_map_to_list.
  - intros Hall. apply filter_is_nil. intros [k u] Hin.
    apply elem_of_map_to_list in Hin. simpl. eauto.
Qed.

Lemma find_username_is_Some name (m : gmap N User) k u :
  m !! k = Some u -> username u = name -> is_Some (find_username name m).
Proof.
  intros Hk Hname.
  destruct (find_username name m) as [d |] eqn:E; [eauto |].
  exfalso. eapply find_username_None in E; eauto.
Qed.

Lemma listed_for_elem uid (m : gmap N Task) k t :
  (k, t) ∈ listed_for uid m <-> m !! k = Some t /\ userId t = uid.
Proof.
  unfold listed_for. rewrite list_elem_of_filter, elem_of_map_to_list.
  simpl. tauto.
Qed.

Lemma listed_for_none uid (m : gmap N Task) :
  (forall k t, m !! k = Some t -> userId t <> uid) -> listed_for uid m = [].
Proof.
  intros Hnone. apply filter_is_nil. intros [k t] Hin.
  apply elem_of_map_to_list in Hin. simpl. eauto.
Qed.

Lemma listed_for_insert_only uid (m : gmap N Task) k t :
  (forall k' t', m !! k' = Some t' -> k' <> k -> userId t' <> uid) ->
  userId t = uid ->
  listed_for uid (<[k := t]> m) = [(k, t)].
Proof.
  intros Hnone Ht. unfold listed_for.
  apply Permutation_singleton_r.
  rewrite <- insert_delete_eq.
  rewrite map_to_list_insert by apply lookup_delete_eq.
  rewrite filter_cons_True by exact Ht.
  rewrite filter_is_nil; [reflexivity |].
  intros [k' t'] Hin. apply elem_of_map_to_list in Hin.
  apply lookup_delete_Some in Hin. destruct Hin as [Hne Hk']. simpl. eauto.
Qed.

Lemma World_ok_fresh w :
  World_ok w -> users w !! oidCounter w = None /\ tasks w !! oidCounter w = None.
Proof.
  intros [Hu Ht]. split.
  - destruct (users w !! oidCounter w) eqn:E; [| reflexivity].
    specialize (Hu (oidCounter w)). rewrite E in Hu. specialize (Hu (mk_is_Some _ _ eq_refl)). lia.
  - destruct (tasks w !! oidCounter w) eqn:E; [| reflexivity].
    specialize (Ht (oidCounter w)). rewrite E in Ht. specialize (Ht (mk_is_Some _ _ eq_refl)). lia.
Qed.

(** ** What each handler computes *)

Lemma get_tasks_eq req u w :
  get_tasks (set_user req u) w =
    (mkResponse 200 (TasksBody (listed_for (claim_userId u) (tasks w))), w).
Proof. reflexivity. Qed.

Lemma fields_guard req :
  negb (truthy (field req "title")) || negb (truthy (field req "status"))
  || negb (truthy (field req "completionDate")) = negb (all_fields req).
Proof.
  unfold all_fields.
  destruct (truthy (field req "title")), (truthy (field req "status")),
    (truthy (field req "completionDate")); reflexivity.
Qed.

Lemma post_tasks_eq req u w :
  post_tasks (set_user req u) w =
    if all_fields req then
      match Task_cast (field req "title") (field req "status")
              (field req "completionDate") (claim_userId u) with
      | Some t =>
          match tasks w !! oidCounter w with
          | None =>
              (mkResponse 201 (TaskBody "Task added successfully" (oidCounter w, t)),
               mkWorld (users w) (<[oidCounter w := t]> (tasks w)) (N.succ (oidCounter w)))
          | Some _ =>
              (mkResponse 500 (ErrorBody "An error occurred while adding the task"),
               mkWorld (users w) (tasks w) (N.succ (oidCounter w)))
          end
      | None =>
          (mkResponse 500 (ErrorBody "An error occurred while adding the task"),
           mkWorld (users w) (tasks w) (N.succ (oidCounter w)))
      end
    else (mkResponse 400 (ErrorBody "Please provide all fields"), w).
Proof.
  unfold post_tasks. change (field (set_user req u)) with (field req).
  rewrite fields_guard. destruct (all_fields req); [| reflexivity].
  unfold try_catch, bind, req_user, Model_new, Task_save, ret; simpl.
  destruct (Task_cast _ _ _ _); [| reflexivity].
  simpl. destruct (tasks w !! oidCounter w); reflexivity.
Qed.

Lemma delete_tasks_id_eq req u w :
  delete_tasks_id (set_user req u) w =
    match castObjectId (params_id req) with
    | None =>
        (mkResponse 500 (ErrorBody "An error occurred while deleting the task"), w)
    | Some oid =>
        match tasks w !! oid with
        | Some t =>
            if decide (userId t = claim_userId u) then
              (mkResponse 200 (MessageBody "Task deleted successfully"),
               set_tasks (delete oid) w)
            else
              (mkResponse 404 (ErrorBody "Task not found or not authorized to delete it"), w)
        | None =>
            (mkResponse 404 (ErrorBody "Task not found or not authorized to delete it"), w)
        end
    end.
Proof.
  unfold delete_tasks_id, try_catch, bind, req_user, Task_findOne, Task_deleteOne, ret.
  simpl. destruct (castObjectId (params_id req)) as [oid |]; [| reflexivity].
  destruct (tasks w !! oid) as [t |]; [| reflexivity].
  destruct (decide (userId t = claim_userId u)); reflexivity.
Qed.

Lemma put_tasks_id_eq req u w :
  put_tasks_id (set_user req u) w =
    if all_fields req then
      match castObjectId (params_id req) with
      | None =>
          (mkResponse 500 (ErrorBody "An error occurred while updating the task"), w)
      | Some oid =>
          match tasks w !! oid with
          | Some t =>
              if decide (userId t = claim_userId u) then
                match Task_cast (field req "title") (field req "status")
                        (field req "completionDate") (userId t) with
                | Some t' =>
                    (mkResponse 200 (TaskBody "Task updated successfully" (oid, t')),
                     set_tasks (insert oid t') w)
                | None =>
                    (mkResponse 500 (ErrorBody "An error occurred while updating the task"), w)
                end
              else
                (mkResponse 404 (ErrorBody "Task not found or not authorized to update it"), w)
          | None =>
              (mkResponse 404 (ErrorBody "Task not found or not authorized to update it"), w)
          end
      end
    else (mkResponse 400 (ErrorBody "Please provide all fields"), w).
Proof.
  unfold put_tasks_id. change (field (set_user req u)) with (field req).
  rewrite fields_guard. destruct (all_fields req); [| reflexivity].
  unfold try_catch, bind, req_user, Task_findOne, Task_assign, Task_save, ret.
  simpl. destruct (castObjectId (params_id req)) as [oid |]; [| reflexivity].
  destruct (tasks w !! oid) as [t |] eqn:Ht; [| reflexivity].
  destruct (decide (userId t = claim_userId u)); [| reflexivity].
  simpl. destruct (Task_cast _ _ _ _); [| reflexivity].
  simpl. rewrite Ht. reflexivity.
Qed.

(** ** Registration and login *)

Lemma credentials_guard req :
  truthy (field req "username") = true ->
  truthy (field req "password") = true ->
  negb (truthy (field req "username")) || negb (truthy (field req "password")) = false.
Proof. now intros -> ->. Qed.

Lemma truthy_JStr s : s <> EmptyString -> truthy (JStr s) = true.
Proof. destruct s; [congruence | reflexivity]. Qed.

Lemma requiredString_JStr s : s <> EmptyString -> requiredString (JStr s) = Some s.
Proof. destruct s; [congruence | reflexivity]. Qed.

Lemma post_register_missing env req w :
  truthy (field req "username") = false \/ truthy (field req "password") = false ->
  post_register env req w =
    (mkResponse 400 (ErrorBody "Please provide both username and password"), w).
Proof.
  unfold post_register. intros [-> | ->]; [reflexivity |].
  now rewrite orb_true_r.
Qed.

Lemma post_login_missing env req w :
  truthy (field req "username") = false \/ truthy (field req "password") = false ->
  post_login env req w =
    (mkResponse 400 (ErrorBody "Please provide both username and password"), w).
Proof.
  unfold post_login. intros [-> | ->]; [reflexivity |].
  now rewrite orb_true_r.
Qed.

Lemma post_register_duplicate env req w name d :
  truthy (field req "username") = true ->
  truthy (field req "password") = true ->
  castString (field req "username") = Some name ->
  find_username name (users w) = Some d ->
  post_register env req w =
    (mkResponse 400 (ErrorBody "Username already exists"), w).
Proof.
  intros Hu Hp Hc Hf. unfold post_register.
  rewrite credentials_guard by assumption.
  unfold try_catch, bind, User_findOne. now rewrite Hc, Hf.
Qed.

Lemma post_register_created env req w name pw :
  name <> EmptyString -> pw <> EmptyString ->
  field req "username" = JStr name ->
  field req "password" = JStr pw ->
  find_username name (users w) = None ->
  users w !! oidCounter w = None ->
  post_register env req w =
    (mkResponse 201 (MessageBody "Registration successful!"),
     mkWorld (<[oidCounter w := mkUser name (hashpw (salt env) 10 pw)]> (users w))
       (tasks w) (N.succ (oidCounter w))).
Proof.
  intros Hn Hp Hu Hpw Hf Hfresh. unfold post_register.
  rewrite credentials_guard by (rewrite ?Hu, ?Hpw; now apply truthy_JStr).
  rewrite Hu, Hpw.
  unfold try_catch, bind, User_findOne, bcrypt_hash, Model_new, User_save, User_cast, ret.
  simpl. rewrite Hf. simpl.
  rewrite (requiredString_JStr name Hn).
  rewrite (requiredString_JStr _ (hashpw_nonempty (salt env) 10%N pw)).
  simpl. now rewrite Hfresh, Hf.
Qed.

(** C4: for a non-empty username no user document carries and a
    non-empty password, registration answers 201 and adds exactly one user
    document, whose password field is the bcrypt digest (cost 10, fresh
    salt) and not the password; registering that username again answers 400
    and leaves the whole store as it was. *)
Theorem C4_register_then_duplicate (env env' : Env) (req req' : Request)
    (w : World) (name pw : string) :
  World_ok w ->
  name <> EmptyString -> pw <> EmptyString ->
  field req "username" = JStr name ->
  field req "password" = JStr pw ->
  (forall k u, users w !! k = Some u -> username u <> name) ->
  field req' "username" = JStr name ->
  let digest := hashpw (salt env) 10 pw in
  let w1 := mkWorld (<[oidCounter w := mkUser name digest]> (users w))
              (tasks w) (N.succ (oidCounter w)) in
  post_register env req w =
    (mkResponse 201 (MessageBody "Registration successful!"), w1) /\
  users w1 !! oidCounter w = Some (mkUser name digest) /\
  digest <> pw /\
  (exists res, post_register env' req' w1 = (res, w1) /\ statusCode res = 400%nat) /\
  (truthy (field req' "password") = true ->
   post_register env' req' w1 =
     (mkResponse 400 (ErrorBody "Username already exists"), w1)).
Proof.
  intros Hok Hn Hp Hu Hpw Hnone Hu' digest w1.
  destruct (World_ok_fresh w Hok) as [Hfresh _].
  assert (Hdup : truthy (field req' "password") = true ->
            post_register env' req' w1 =
              (mkResponse 400 (ErrorBody "Username already exists"), w1)).
  { intros Hp'.
    destruct (find_username_is_Some name (users w1) (oidCounter w) (mkUser name digest))
      as [d Hd]; [apply lookup_insert_eq | reflexivity |].
    eapply post_register_duplicate; eauto.
    - rewrite Hu'. now apply truthy_JStr.
    - now rewrite Hu'. }
  split; [| split; [| split; [| split]]].
  - apply post_register_created; auto. now apply find_username_None.
  - apply lookup_insert_eq.
  - apply hashpw_not_plain.
  - destruct (truthy (field req' "password")) eqn:Hp'.
    + eexists. split; [apply Hdup; reflexivity | reflexivity].
    + eexists. split; [apply post_register_missing; now right | reflexivity].
  - exact Hdup.
Qed.

(** C5: a registered user who logs in with the right password receives a
    token whenever the secret is set; on the token clock the token verifies,
    with that user's id as payload, at every time before one hour after
    issuance, and it is rejected as expired at every time from one hour
    after issuance on. *)
Theorem C5_token_lifetime (env : Env) (req : Request) (w : World)
    (name pw : string) (uid : N) (u : User) :
  name <> EmptyString -> pw <> EmptyString ->
  field req "username" = JStr name ->
  field req "password" = JStr pw ->
  find_username name (users w) = Some (uid, u) ->
  checkpw pw (password u) = true ->
  (JWT_SECRET <> EmptyString ->
   exists tok, post_login env req w = (mkResponse 200 (TokenBody tok), w)) /\
  (forall tok w',
     post_login env req w = (mkResponse 200 (TokenBody tok), w') ->
     forall env',
       (now env' < now env + 3600 ->
        exists c, jwt_verify env' tok JWT_SECRET = inr c /\ claim_userId c = uid) /\
       (now env + 3600 <= now env' ->
        jwt_verify env' tok JWT_SECRET = inl TokenExpiredError)).
Proof.
  intros Hn Hp Hu Hpw Hf Hcheck.
  assert (Hrun : post_login env req w =
            match jws_encode JWT_SECRET (mkClaims uid (now env) (now env + one_hour)) with
            | Some tok => (mkResponse 200 (TokenBody tok), w)
            | None => (mkResponse 500 (ErrorBody "An error occurred during login"), w)
            end).
  { unfold post_login.
    rewrite credentials_guard by (rewrite ?Hu, ?Hpw; now apply truthy_JStr).
    rewrite Hu, Hpw.
    unfold try_catch, bind, User_findOne, bcrypt_compare, jwt_sign, ret.
    simpl. rewrite Hf. destruct u as [uname upass]. simpl in Hcheck |- *.
    rewrite Hcheck. simpl. now destruct (jws_encode _ _). }
  rewrite Hrun. split.
  - intros Hsecret.
    destruct (jws_encode_secret JWT_SECRET
                (mkClaims uid (now env) (now env + one_hour)) Hsecret) as [tok Henc].
    exists tok. now rewrite Henc.
  - intros tok w' Hres env'.
    destruct (jws_encode JWT_SECRET _) as [tok' |] eqn:Henc; [| discriminate].
    injection Hres as <- _.
    apply jws_decode_encode in Henc.
    unfold jwt_verify. rewrite Henc. simpl. unfold one_hour. split.
    + intros Hlt. destruct (Z.leb_spec (now env + 3600) (now env')); [lia |].
      eexists. split; reflexivity.
    + intros Hge. destruct (Z.leb_spec (now env + 3600) (now env')); [reflexivity | lia].
Qed.


(** C9: an authenticated POST /tasks or PUT /tasks/:id whose body lacks
    title, status or completionDate is answered 400, and POST /register or
    POST /login whose body lacks username or password is answered 400; the
    response is the same for every store and the store is left as it was. *)
Theorem C9_missing_fields (env : Env) (req : Request) (w : World) (key : string) :
  body req !! key = None ->
  (key = "title" \/ key = "status" \/ key = "completionDate" ->
   forall u, authenticated env req u ->
     app POST_tasks env req w =
       (mkResponse 400 (ErrorBody "Please provide all fields"), w) /\
     app PUT_tasks_id env req w =
       (mkResponse 400 (ErrorBody "Please provide all fields"), w)) /\
  (key = "username" \/ key = "password" ->
   app POST_register env req w =
     (mkResponse 400 (ErrorBody "Please provide both username and password"), w) /\
   app POST_login env req w =
     (mkResponse 400 (ErrorBody "Please provide both username and password"), w)).
Proof.
  intros Hmiss.
  assert (Hfalsy : truthy (field req key) = false).
  { unfold field. now rewrite Hmiss. }
  split.
  - intros Hkey u Hauth.
    assert (Hall : all_fields req = false).
    { unfold all_fields. destruct Hkey as [-> | [-> | ->]]; rewrite Hfalsy;
        rewrite ?andb_false_r; reflexivity. }
    simpl. rewrite !(authenticated_next _ _ _ _ _ Hauth).
    rewrite post_tasks_eq, put_tasks_id_eq, Hall. split; reflexivity.
  - intros Hkey. simpl. split.
    + apply post_register_missing. destruct Hkey as [-> | ->]; auto.
    + apply post_login_missing. destruct Hkey as [-> | ->]; auto.
Qed.

(** ** Tasks *)

Lemma Task_cast_Some v1 v2 v3 uid t :
  Task_cast v1 v2 v3 uid = Some t <->
  requiredString v1 = Some (title t) /\
  requiredString v2 = Some (status t) /\
  requiredDate v3 = Some (completionDate t) /\
  userId t = uid.
Proof.
  unfold Task_cast.
  destruct (requiredString v1) as [a |], (requiredString v2) as [b |],
    (requiredDate v3) as [c |]; destruct t as [a' b' c' u']; simpl;
    split; try discriminate; try (intros (? & ? & ? & ?); discriminate).
  - intros [= -> -> -> ->]; auto.
  - intros ([= ->] & [= ->] & [= ->] & ->). reflexivity.
Qed.

(** C1: with B's valid token, GET /tasks lists only tasks owned
    by B, so none owned by another user A; DELETE /tasks/:id on a task owned
    by A is answered 404; PUT /tasks/:id on it is answered 404 when title,
    status and completionDate are all present and 400 otherwise; and in
    every case the whole store, that task included, is left as it was. *)
Theorem C1_owner_isolation (A B : N) (env : Env) (req : Request) (u : Claims)
    (w : World) (oid : N) (t : Task) :
  A <> B ->
  authenticated env req u -> claim_userId u = B ->
  tasks w !! oid = Some t -> userId t = A ->
  castObjectId (params_id req) = Some oid ->
  (exists l, app GET_tasks env req w = (mkResponse 200 (TasksBody l), w) /\
     ((oid, t) ∉ l) /\
     forall d, d ∈ l -> userId d.2 = B /\ userId d.2 <> A) /\
  app DELETE_tasks_id env req w =
    (mkResponse 404 (ErrorBody "Task not found or not authorized to delete it"), w) /\
  app PUT_tasks_id env req w =
    (if all_fields req
     then mkResponse 404 (ErrorBody "Task not found or not authorized to update it")
     else mkResponse 400 (ErrorBody "Please provide all fields"), w).
Proof.
  intros Hne Hauth HB Ht HA Hid. simpl.
  rewrite !(authenticated_next _ _ _ _ _ Hauth).
  split; [| split].
  - rewrite get_tasks_eq. eexists. split; [reflexivity |]. rewrite HB. split.
    + intros Hin. apply listed_for_elem in Hin. destruct Hin as [_ Hin]. congruence.
    + intros [k t'] Hin. apply listed_for_elem in Hin. destruct Hin as [_ Hin].
      simpl. split; congruence.
  - rewrite delete_tasks_id_eq, Hid, Ht.
    destruct (decide (userId t = claim_userId u)); [congruence | reflexivity].
  - rewrite put_tasks_id_eq, Hid, Ht.
    destruct (all_fields req); [| reflexivity].
    destruct (decide (userId t = claim_userId u)); [congruence | reflexivity].
Qed.

(** C7: when PUT /tasks/:id is answered 200, the addressed task belonged to
    the caller; it is stored under the same [_id] with the same owner and
    with title, status and completionDate set to the supplied values as the
    schema casts them (a supplied string title or status is stored as it
    is); every other task, every user document and the ObjectId generator
    are as before. *)
Theorem C7_put_frame (env : Env) (req : Request) (u : Claims)
    (w w' : World) (res : Response) :
  authenticated env req u ->
  app PUT_tasks_id env req w = (res, w') ->
  statusCode res = 200%nat ->
  exists oid t t',
    castObjectId (params_id req) = Some oid /\
    tasks w !! oid = Some t /\ userId t = claim_userId u /\
    res = mkResponse 200 (TaskBody "Task updated successfully" (oid, t')) /\
    requiredString (field req "title") = Some (title t') /\
    requiredString (field req "status") = Some (status t') /\
    requiredDate (field req "completionDate") = Some (completionDate t') /\
    (forall s, field req "title" = JStr s -> title t' = s) /\
    (forall s, field req "status" = JStr s -> status t' = s) /\
    userId t' = userId t /\
    tasks w' = <[oid := t']> (tasks w) /\
    tasks w' !! oid = Some t' /\
    (forall k, k <> oid -> tasks w' !! k = tasks w !! k) /\
    users w' = users w /\
    oidCounter w' = oidCounter w.
Proof.
  intros Hauth Hrun Hcode. simpl in Hrun.
  rewrite (authenticated_next _ _ _ _ _ Hauth), put_tasks_id_eq in Hrun.
  destruct (all_fields req) eqn:Hall;
    [| injection Hrun as <- <-; discriminate].
  destruct (castObjectId (params_id req)) as [oid |];
    [| injection Hrun as <- <-; discriminate].
  destruct (tasks w !! oid) as [t |] eqn:Ht;
    [| injection Hrun as <- <-; discriminate].
  destruct (decide (userId t = claim_userId u)) as [Hown |];
    [| injection Hrun as <- <-; discriminate].
  destruct (Task_cast _ _ _ _) as [t' |] eqn:Hcast;
    [| injection Hrun as <- <-; discriminate].
  injection Hrun as <- <-.
  apply Task_cast_Some in Hcast. destruct Hcast as (Ht1 & Ht2 & Ht3 & Ht4).
  exists oid, t, t'. repeat split; auto.
  - intros s Hs. rewrite Hs in Ht1. destruct s; [discriminate |].
    cbv [requiredString castString] in Ht1. congruence.
  - intros s Hs. rewrite Hs in Ht2. destruct s; [discriminate |].
    cbv [requiredString castString] in Ht2. congruence.
  - simpl. apply lookup_insert_eq.
  - intros k Hk. simpl. now apply lookup_insert_ne.
Qed.

(** C3: for a user with no task in the store and a title, status
    and completionDate that are all truthy and that the Task schema accepts,
    POST /tasks answers 201 and the next GET /tasks lists exactly the created
    task, with the cast title, status and completionDate and the caller as
    owner; a following PUT /tasks/:id on it with accepted fields answers 200
    and the next GET lists exactly the updated task, whose status is "done"
    when that was the supplied status; a following DELETE /tasks/:id answers
    200 and the next GET lists nothing. *)
Theorem C3_task_round_trip (uid : N) (env1 env2 env3 env4 : Env)
    (req_post req_get req_put req_del : Request) (u1 u2 u3 u4 : Claims)
    (w : World) (t t2 : Task) :
  World_ok w ->
  (forall k t', tasks w !! k = Some t' -> userId t' <> uid) ->
  authenticated env1 req_post u1 -> claim_userId u1 = uid ->
  authenticated env2 req_get u2 -> claim_userId u2 = uid ->
  authenticated env3 req_put u3 -> claim_userId u3 = uid ->
  authenticated env4 req_del u4 -> claim_userId u4 = uid ->
  all_fields req_post = true ->
  Task_cast (field req_post "title") (field req_post "status")
    (field req_post "completionDate") uid = Some t ->
  castObjectId (params_id req_put) = Some (oidCounter w) ->
  all_fields req_put = true ->
  Task_cast (field req_put "title") (field req_put "status")
    (field req_put "completionDate") uid = Some t2 ->
  castObjectId (params_id req_del) = Some (oidCounter w) ->
  let oid := oidCounter w in
  exists w1 w2 w3,
    app POST_tasks env1 req_post w =
      (mkResponse 201 (TaskBody "Task added successfully" (oid, t)), w1) /\
    app GET_tasks env2 req_get w1 = (mkResponse 200 (TasksBody [(oid, t)]), w1) /\
    requiredString (field req_post "title") = Some (title t) /\
    requiredString (field req_post "status") = Some (status t) /\
    requiredDate (field req_post "completionDate") = Some (completionDate t) /\
    userId t = uid /\
    app PUT_tasks_id env3 req_put w1 =
      (mkResponse 200 (TaskBody "Task updated successfully" (oid, t2)), w2) /\
    app GET_tasks env2 req_get w2 = (mkResponse 200 (TasksBody [(oid, t2)]), w2) /\
    (field req_put "status" = JStr "done" -> status t2 = "done") /\
    app DELETE_tasks_id env4 req_del w2 =
      (mkResponse 200 (MessageBody "Task deleted successfully"), w3) /\
    app GET_tasks env2 req_get w3 = (mkResponse 200 (TasksBody []), w3).
Proof.
  intros Hok Hnone Ha1 Hu1 Ha2 Hu2 Ha3 Hu3 Ha4 Hu4 Hall Hcast Hid2 Hall2 Hcast2 Hid4 oid.
  destruct (World_ok_fresh w Hok) as [_ Hfresh]. fold oid in Hfresh, Hid2, Hid4.
  pose proof Hcast as Hc. apply Task_cast_Some in Hc. destruct Hc as (Hc1 & Hc2 & Hc3 & Hc4).
  pose proof Hcast2 as Hd. apply Task_cast_Some in Hd. destruct Hd as (Hd1 & Hd2 & Hd3 & Hd4).
  exists (mkWorld (users w) (<[oid := t]> (tasks w)) (N.succ oid)),
         (mkWorld (users w) (<[oid := t2]> (tasks w)) (N.succ oid)),
         (mkWorld (users w) (tasks w) (N.succ oid)).
  simpl.
  rewrite !(authenticated_next _ _ _ _ _ Ha1), !(authenticated_next _ _ _ _ _ Ha2),
    !(authenticated_next _ _ _ _ _ Ha3), !(authenticated_next _ _ _ _ _ Ha4).
  rewrite post_tasks_eq, put_tasks_id_eq, delete_tasks_id_eq, !get_tasks_eq.
  rewrite Hall, Hall2, Hu1, Hu2, Hu3, Hu4, Hcast, Hid2, Hid4. simpl.
  fold oid. rewrite Hfresh, !lookup_insert_eq, Hc4, Hd4.
  rewrite !decide_True by reflexivity. rewrite Hcast2.
  unfold set_tasks; simpl. rewrite insert_insert_eq, delete_insert_id by exact Hfresh.
  rewrite !listed_for_insert_only by (auto; intros; eauto).
  rewrite listed_for_none by exact Hnone.
  repeat split; auto.
  intros Hs. rewrite Hs in Hd2. cbv [requiredString castString] in Hd2. congruence.
Qed.

Lemma World_ok_bump w :
  World_ok w -> World_ok (mkWorld (users w) (tasks w) (N.succ (oidCounter w))).
Proof.
  intros [Hu Ht]. split; simpl; intros k Hk;
    [specialize (Hu k Hk) | specialize (Ht k Hk)]; lia.
Qed.

Lemma World_ok_new_user w u :
  World_ok w ->
  World_ok (mkWorld (<[oidCounter w := u]> (users w)) (tasks w) (N.succ (oidCounter w))).
Proof.
  intros [Hu Ht]. split; simpl; intros k Hk.
  - apply lookup_insert_is_Some in Hk. destruct Hk as [<- | [_ Hk]]; [lia |].
    specialize (Hu k Hk). lia.
  - specialize (Ht k Hk). lia.
Qed.

Lemma World_ok_new_task w t :
  World_ok w ->
  World_ok (mkWorld (users w) (<[oidCounter w := t]> (tasks w)) (N.succ (oidCounter w))).
Proof.
  intros [Hu Ht]. split; simpl; intros k Hk.
  - specialize (Hu k Hk). lia.
  - apply lookup_insert_is_Some in Hk. destruct Hk as [<- | [_ Hk]]; [lia |].
    specialize (Ht k Hk). lia.
Qed.

Lemma World_ok_put w oid t t' :
  tasks w !! oid = Some t -> World_ok w -> World_ok (set_tasks (insert oid t') w).
Proof.
  intros Hoid [Hu Ht]. split; simpl; intros k Hk; [now apply Hu |].
  apply lookup_insert_is_Some in Hk. destruct Hk as [<- | [_ Hk]]; [| now apply Ht].
  apply Ht. eauto.
Qed.

Lemma World_ok_delete w oid :
  World_ok w -> World_ok (set_tasks (delete oid) w).
Proof.
  intros [Hu Ht]. split; simpl; intros k Hk; [now apply Hu |].
  apply Ht. apply lookup_delete_is_Some in Hk. tauto.
Qed.

(** Every route keeps the ObjectId generator ahead of the store. *)
Lemma app_World_ok (r : Route) (env : Env) (req : Request) (w : World) :
  World_ok w -> World_ok (app r env req w).2.
Proof.
  intros Hok.
  assert (Hauth : forall h : Request -> Handler,
            (forall u, World_ok (h (set_user req u) w).2) ->
            World_ok (authenticateJWT env h req w).2).
  { intros h Hh. unfold authenticateJWT.
    destruct (String_replace "Bearer " EmptyString <$> authorization req) as [[| c tok] |];
      try exact Hok.
    destruct (jwt_verify env (String c tok) JWT_SECRET); [exact Hok | apply Hh]. }
  destruct r; simpl.
  - unfold post_register.
    destruct (negb _ || negb _); [exact Hok |].
    unfold try_catch, bind, User_findOne, bcrypt_hash, Model_new, User_save, ret, throw.
    simpl. repeat case_match; simplify_eq/=; unfold set_users; simpl;
      auto using World_ok_bump, World_ok_new_user.
  - unfold post_login.
    destruct (negb _ || negb _); [exact Hok |].
    unfold try_catch, bind, User_findOne, bcrypt_compare, jwt_sign, ret, throw.
    simpl. repeat case_match; simplify_eq/=; exact Hok.
  - apply Hauth. intros u. rewrite post_tasks_eq.
    repeat case_match; simpl; auto using World_ok_bump, World_ok_new_task.
  - apply Hauth. intros u. rewrite get_tasks_eq. exact Hok.
  - apply Hauth. intros u. rewrite delete_tasks_id_eq.
    repeat case_match; simpl; auto using World_ok_delete.
  - apply Hauth. intros u. rewrite put_tasks_id_eq.
    repeat case_match; simpl; eauto using World_ok_put.
Qed.

Lemma empty_world_ok : World_ok empty_world.
Proof.
  split; simpl; intros k Hk; rewrite lookup_empty in Hk; now destruct Hk.
Qed.
End Properties.


(** * Further properties of the handlers *)

Section Further.
Context `{Bcrypt} `{Jws} `{Casts} `{ProcessEnv}.

(** ** One step of the application *)

Lemma authenticateJWT_cases env next req w :
  (exists code msg, (code = 401 \/ code = 403)%nat /\
     authenticateJWT env next req w = (mkResponse code (ErrorBody msg), w)) \/
  (exists u, authenticated env req u /\
     authenticateJWT env next req w = next (set_user req u) w).
Proof.
  unfold authenticateJWT.
  destruct (authorization req) as [header |] eqn:Hh; simpl.
  - destruct (String_replace "Bearer " EmptyString header) as [| c tok] eqn:Htok.
    + left. exists 401%nat, "Authentication required". split; [now left | reflexivity].
    + destruct (jwt_verify env (String c tok) JWT_SECRET) as [err | u] eqn:Hv.
      * left. exists 403%nat, "Invalid or expired token".
        split; [now right | reflexivity].
      * right. exists u. split; [| reflexivity].
        exists header. rewrite Htok. repeat split; auto; discriminate.
  - left. exists 401%nat, "Authentication required". split; [now left | reflexivity].
Qed.

(** What the two account handlers compute, branch by branch. *)
Lemma post_register_eq env req w :
  post_register env req w =
    if truthy (field req "username") && truthy (field req "password") then
      match match castString (field req "username") with
            | Some name => find_username name (users w)
            | None => None
            end with
      | Some _ => (mkResponse 400 (ErrorBody "Username already exists"), w)
      | None =>
          match field req "password" with
          | JStr pw =>
              match User_cast (field req "username")
                      (JStr (hashpw (salt env) 10 pw)) with
              | Some u =>
                  match users w !! oidCounter w,
                        find_username (username u) (users w) with
                  | None, None =>
                      (mkResponse 201 (MessageBody "Registration successful!"),
                       mkWorld (<[oidCounter w := u]> (users w)) (tasks w)
                         (N.succ (oidCounter w)))
                  | _, _ =>
                      (mkResponse 500
                         (ErrorBody "An error occurred during registration"),
                       mkWorld (users w) (tasks w) (N.succ (oidCounter w)))
                  end
              | None =>
                  (mkResponse 500 (ErrorBody "An error occurred during registration"),
                   mkWorld (users w) (tasks w) (N.succ (oidCounter w)))
              end
          | _ =>
              (mkResponse 500 (ErrorBody "An error occurred during registration"), w)
          end
      end
    else
      (mkResponse 400 (ErrorBody "Please provide both username and password"), w).
Proof.
  unfold post_register.
  destruct (truthy (field req "username")); [| reflexivity].
  destruct (truthy (field req "password")); [| reflexivity].
  unfold try_catch, bind, User_findOne, bcrypt_hash, Model_new, User_save, ret, throw.
  cbn [negb orb andb fst snd].
  destruct (match castString (field req "username") with
            | Some name => find_username name (users w)
            | None => None
            end); [reflexivity |].
  destruct (field req "password") as [| | b | n | pw]; try reflexivity.
  cbn [fields _id isNew oidCounter users tasks].
  destruct (User_cast _ _) as [u |]; [| reflexivity].
  destruct (users w !! oidCounter w); [reflexivity |].
  destruct (find_username (username u) (users w)); reflexivity.
Qed.

Lemma post_login_eq env req w :
  post_login env req w =
    if truthy (field req "username") && truthy (field req "password") then
      match match castString (field req "username") with
            | Some name => find_username name (users w)
            | None => None
            end with
      | None => (mkResponse 400 (ErrorBody "Invalid username or password"), w)
      | Some (uid, u) =>
          match field req "password" with
          | JStr pw =>
              if checkpw pw (password u) then
                match jws_encode JWT_SECRET
                        (mkClaims uid (now env) (now env + one_hour)) with
                | Some tok => (mkResponse 200 (TokenBody tok), w)
                | None =>
                    (mkResponse 500 (ErrorBody "An error occurred during login"), w)
                end
              else (mkResponse 400 (ErrorBody "Invalid username or password"), w)
          | _ => (mkResponse 500 (ErrorBody "An error occurred during login"), w)
          end
      end
    else
      (mkResponse 400 (ErrorBody "Please provide both username and password"), w).
Proof.
  unfold post_login.
  destruct (truthy (field req "username")); [| reflexivity].
  destruct (truthy (field req "password")); [| reflexivity].
  unfold try_catch, bind, User_findOne, bcrypt_compare, jwt_sign, ret, throw.
  cbn [negb orb andb fst snd].
  destruct (match castString (field req "username") with
            | Some name => find_username name (users w)
            | None => None
            end) as [[uid [uname upass]] |]; [| reflexivity].
  destruct (field req "password") as [| | b | n | pw]; try reflexivity.
  cbn [password]. destruct (checkpw pw upass); [| reflexivity].
  cbn [negb]. destruct (jws_encode _ _); reflexivity.
Qed.

(** How the users collection can differ after a request. *)
Lemma app_users_step r env req w :
  users (app r env req w).2 = users w \/
  (r = POST_register /\
   exists u, users w !! oidCounter w = None /\
     find_username (username u) (users w) = None /\
     (app r env req w).1 = mkResponse 201 (MessageBody "Registration successful!") /\
     users (app r env req w).2 = <[oidCounter w := u]> (users w)).
Proof.
  assert (Hauth : forall h : Request -> Handler,
            (forall u, users (h (set_user req u) w).2 = users w) ->
            users (authenticateJWT env h req w).2 = users w).
  { intros h Hh.
    destruct (authenticateJWT_cases env h req w)
      as [(code & msg & _ & ->) | (u & _ & ->)]; [reflexivity | apply Hh]. }
  destruct r; simpl.
  - rewrite post_register_eq.
    destruct (truthy _ && truthy _); [| now left].
    destruct (match castString (field req "username") with
              | Some name => find_username name (users w)
              | None => None
              end); [now left |].
    destruct (field req "password") as [| | b | n | pw]; try now left.
    destruct (User_cast _ _) as [u |]; [| now left].
    destruct (users w !! oidCounter w) eqn:Hfresh; [now left |].
    destruct (find_username (username u) (users w)) eqn:Hname; [now left |].
    right. split; [reflexivity |]. exists u. auto.
  - left. rewrite post_login_eq. repeat case_match; reflexivity.
  - left. apply Hauth. intros u. rewrite post_tasks_eq.
    repeat case_match; reflexivity.
  - left. apply Hauth. intros u. now rewrite get_tasks_eq.
  - left. apply Hauth. intros u. rewrite delete_tasks_id_eq.
    repeat case_match; reflexivity.
  - left. apply Hauth. intros u. rewrite put_tasks_id_eq.
    repeat case_match; reflexivity.
Qed.

(** How the tasks collection can differ after a request, and what the
    response then is. *)
Lemma app_tasks_step r env req w :
  tasks (app r env req w).2 = tasks w \/
  exists u oid,
    authenticated env req u /\
    ((r = POST_tasks /\ oid = oidCounter w /\ tasks w !! oid = None /\
      exists t, Task_cast (field req "title") (field req "status")
                  (field req "completionDate") (claim_userId u) = Some t /\
        (app r env req w).1 =
          mkResponse 201 (TaskBody "Task added successfully" (oid, t)) /\
        tasks (app r env req w).2 = <[oid := t]> (tasks w)) \/
     (r = DELETE_tasks_id /\ castObjectId (params_id req) = Some oid /\
      exists t, tasks w !! oid = Some t /\ userId t = claim_userId u /\
        (app r env req w).1 =
          mkResponse 200 (MessageBody "Task deleted successfully") /\
        tasks (app r env req w).2 = delete oid (tasks w)) \/
     (r = PUT_tasks_id /\ castObjectId (params_id req) = Some oid /\
      exists t t', tasks w !! oid = Some t /\ userId t = claim_userId u /\
        userId t' = userId t /\
        (app r env req w).1 =
          mkResponse 200 (TaskBody "Task updated successfully" (oid, t')) /\
        tasks (app r env req w).2 = <[oid := t']> (tasks w))).
Proof.
  destruct r; simpl.
  - left. rewrite post_register_eq. repeat case_match; reflexivity.
  - left. rewrite post_login_eq. repeat case_match; reflexivity.
  - destruct (authenticateJWT_cases env post_tasks req w)
      as [(code & msg & _ & ->) | (u & Hu & ->)]; [now left |].
    rewrite post_tasks_eq.
    destruct (all_fields req); [| now left].
    destruct (Task_cast _ _ _ _) as [t |] eqn:Hcast; [| now left].
    destruct (tasks w !! oidCounter w) eqn:Hfresh; [now left |].
    right. exists u, (oidCounter w). split; [exact Hu |]. left.
    repeat split; auto. exists t. auto.
  - left. destruct (authenticateJWT_cases env get_tasks req w)
      as [(code & msg & _ & ->) | (u & Hu & ->)]; [reflexivity |].
    now rewrite get_tasks_eq.
  - destruct (authenticateJWT_cases env delete_tasks_id req w)
      as [(code & msg & _ & ->) | (u & Hu & ->)]; [now left |].
    rewrite delete_tasks_id_eq.
    destruct (castObjectId (params_id req)) as [oid |] eqn:Hid; [| now left].
    destruct (tasks w !! oid) as [t |] eqn:Ht; [| now left].
    destruct (decide (userId t = claim_userId u)) as [Hown |]; [| now left].
    right. exists u, oid. split; [exact Hu |]. right. left.
    repeat split; auto. exists t. auto.
  - destruct (authenticateJWT_cases env put_tasks_id req w)
      as [(code & msg & _ & ->) | (u & Hu & ->)]; [now left |].
    rewrite put_tasks_id_eq.
    destruct (all_fields req); [| now left].
    destruct (castObjectId (params_id req)) as [oid |] eqn:Hid; [| now left].
    destruct (tasks w !! oid) as [t |] eqn:Ht; [| now left].
    destruct (decide (userId t = claim_userId u)) as [Hown |]; [| now left].
    destruct (Task_cast _ _ _ _) as [t' |] eqn:Hcast; [| now left].
    right. exists u, oid. split; [exact Hu |]. right. right.
    repeat split; auto. exists t, t'.
    apply Task_cast_Some in Hcast. destruct Hcast as (_ & _ & _ & Hcast). auto.
Qed.

Lemma app_Usernames_unique r env req w :
  Usernames_unique w -> Usernames_unique (app r env req w).2.
Proof.
  intros Huniq. unfold Usernames_unique.
  destruct (app_users_step r env req w) as [-> | (_ & u & Hfresh & Hname & _ & ->)];
    [exact Huniq |].
  intros k1 k2 u1 u2 Hk1 Hk2 Heq.
  apply lookup_insert_Some in Hk1. apply lookup_insert_Some in Hk2.
  destruct Hk1 as [[<- <-] | [Hne1 Hk1]], Hk2 as [[<- <-] | [Hne2 Hk2]].
  - reflexivity.
  - exfalso. apply (proj1 (find_username_None _ _) Hname k2 u2 Hk2). congruence.
  - exfalso. apply (proj1 (find_username_None _ _) Hname k1 u1 Hk1). congruence.
  - eapply Huniq; eauto.
Qed.

Lemma app_oidCounter_mono r env req w :
  (oidCounter w <= oidCounter (app r env req w).2)%N.
Proof.
  assert (Hauth : forall h : Request -> Handler,
            (forall u, (oidCounter w <= oidCounter (h (set_user req u) w).2)%N) ->
            (oidCounter w <= oidCounter (authenticateJWT env h req w).2)%N).
  { intros h Hh.
    destruct (authenticateJWT_cases env h req w)
      as [(code & msg & _ & ->) | (u & _ & ->)]; [reflexivity | apply Hh]. }
  destruct r; simpl.
  - rewrite post_register_eq. repeat case_match; simpl; lia.
  - rewrite post_login_eq. repeat case_match; simpl; lia.
  - apply Hauth. intros u. rewrite post_tasks_eq. repeat case_match; simpl; lia.
  - apply Hauth. intros u. rewrite get_tasks_eq. reflexivity.
  - apply Hauth. intros u. rewrite delete_tasks_id_eq. repeat case_match; simpl; lia.
  - apply Hauth. intros u. rewrite put_tasks_id_eq. repeat case_match; simpl; lia.
Qed.

(** A request that is not made in the name of user [B] neither changes,
    removes nor adds a task owned by [B]. *)
Lemma app_keeps_tasks_of (B : N) r env req w :
  (forall u, authenticated env req u -> claim_userId u <> B) ->
  forall k t, userId t = B ->
    (tasks w !! k = Some t <-> tasks (app r env req w).2 !! k = Some t).
Proof.
  intros Hnot k t Ht.
  destruct (app_tasks_step r env req w)
    as [-> | (u & oid & Hu & [Hpost | [Hdel | Hput]])]; [tauto | | |];
    specialize (Hnot u Hu).
  - destruct Hpost as (_ & -> & Hfresh & t0 & Hcast & _ & ->).
    apply Task_cast_Some in Hcast. destruct Hcast as (_ & _ & _ & Hown).
    rewrite lookup_insert_Some. split.
    + intros Hk. right. split; [congruence | exact Hk].
    + intros [[_ <-] | [_ Hk]]; [congruence | exact Hk].
  - destruct Hdel as (_ & _ & t0 & Ht0 & Hown & _ & ->).
    rewrite lookup_delete_Some. split.
    + intros Hk. split; [congruence | exact Hk].
    + tauto.
  - destruct Hput as (_ & _ & t0 & t' & Ht0 & Hown & Hsame & _ & ->).
    rewrite lookup_insert_Some. split.
    + intros Hk. right. split; [congruence | exact Hk].
    + intros [[_ <-] | [_ Hk]]; [congruence | exact Hk].
Qed.

Lemma NoDup_listed_for uid (m : gmap N Task) : NoDup (listed_for uid m).
Proof. apply NoDup_filter, NoDup_map_to_list. Qed.

Lemma listed_for_Permutation uid (m m' : gmap N Task) :
  (forall k t, userId t = uid -> (m !! k = Some t <-> m' !! k = Some t)) ->
  listed_for uid m' ≡ₚ listed_for uid m.
Proof.
  intros Hsame. apply NoDup_Permutation; try apply NoDup_listed_for.
  intros [k t]. rewrite !listed_for_elem.
  split; intros [Hk Hown]; (split; [apply (Hsame k t Hown), Hk | exact Hown]).
Qed.

(** ** Properties over every request and every sequence of requests *)

Lemma serve_keeps_user (reqs : list (Route * Env * Request)) (w : World)
    (k : N) (u : User) :
  users w !! k = Some u -> users (serve reqs w) !! k = Some u.
Proof.
  revert w. induction reqs as [| [[r env] req] rest IH]; intros w Hk; [exact Hk |].
  simpl. apply IH.
  destruct (app_users_step r env req w) as [-> | (_ & u' & Hfresh & _ & _ & ->)];
    [exact Hk |].
  rewrite lookup_insert_ne; [exact Hk | congruence].
Qed.

(** X1: a user document, once stored, is never changed or removed: whatever
    requests are served afterwards, it is found under the same [_id] with
    the same username and password digest, and its username stays taken:
    registering it again is answered 400 and changes nothing. *)
Theorem users_are_permanent (reqs : list (Route * Env * Request)) (w : World)
    (k : N) (u : User) (env : Env) (req : Request) :
  users w !! k = Some u ->
  field req "username" = JStr (username u) ->
  truthy (field req "username") = true ->
  truthy (field req "password") = true ->
  users (serve reqs w) !! k = Some u /\
  app POST_register env req (serve reqs w) =
    (mkResponse 400 (ErrorBody "Username already exists"), serve reqs w).
Proof.
  intros Hk Hname Hu Hp.
  pose proof (serve_keeps_user reqs w k u Hk) as Hkept.
  split; [exact Hkept |].
  destruct (find_username_is_Some (username u) (users (serve reqs w)) k u Hkept eq_refl)
    as [d Hd].
  simpl. eapply post_register_duplicate; eauto. now rewrite Hname.
Qed.

(** X2: from a store in which usernames are unique and every [_id] was
    drawn from the generator, every sequence of requests leads to such a
    store again: registration never yields two users with one username. *)
Theorem serve_keeps_invariants (reqs : list (Route * Env * Request)) (w : World) :
  World_ok w -> Usernames_unique w ->
  World_ok (serve reqs w) /\ Usernames_unique (serve reqs w).
Proof.
  revert w. induction reqs as [| [[r env] req] rest IH]; intros w Hok Huniq;
    [split; assumption |].
  simpl. apply IH.
  - now apply app_World_ok.
  - now apply app_Usernames_unique.
Qed.

(** X3: if a stored task is no longer there unchanged after a request, the
    request was a DELETE or PUT on that task's id, answered 200, carrying a
    token of the task's owner. *)
Theorem task_changed_only_by_owner (r : Route) (env : Env) (req : Request)
    (w : World) (k : N) (t : Task) :
  tasks w !! k = Some t ->
  tasks (app r env req w).2 !! k <> Some t ->
  (r = DELETE_tasks_id \/ r = PUT_tasks_id) /\
  castObjectId (params_id req) = Some k /\
  statusCode (app r env req w).1 = 200%nat /\
  exists u, authenticated env req u /\ claim_userId u = userId t.
Proof.
  intros Hk Hchanged.
  destruct (app_tasks_step r env req w)
    as [Heq | (u & oid & Hu & [Hpost | [Hdel | Hput]])].
  - rewrite Heq in Hchanged. contradiction.
  - destruct Hpost as (_ & -> & Hfresh & t0 & _ & _ & Heq).
    rewrite Heq, lookup_insert_ne in Hchanged by congruence. contradiction.
  - destruct Hdel as (-> & Hid & t0 & Ht0 & Hown & Hres & Heq).
    destruct (decide (oid = k)) as [-> |].
    + rewrite Hres. repeat split; auto. exists u. split; [exact Hu | congruence].
    + rewrite Heq, lookup_delete_ne in Hchanged by assumption. contradiction.
  - destruct Hput as (-> & Hid & t0 & t' & Ht0 & Hown & _ & Hres & Heq).
    destruct (decide (oid = k)) as [-> |].
    + rewrite Hres. repeat split; auto. exists u. split; [exact Hu | congruence].
    + rewrite Heq, lookup_insert_ne in Hchanged by assumption. contradiction.
Qed.

(** X4: across any sequence of requests none of which carries a token of
    user [B], the tasks owned by [B] are exactly the same before and after,
    and GET /tasks for [B] lists the same tasks, up to order. *)
Theorem others_cannot_touch_tasks_of (B : N) (reqs : list (Route * Env * Request))
    (w : World) :
  (forall r env req u,
     (r, env, req) ∈ reqs -> authenticated env req u -> claim_userId u <> B) ->
  (forall k t, userId t = B ->
     (tasks w !! k = Some t <-> tasks (serve reqs w) !! k = Some t)) /\
  listed_for B (tasks (serve reqs w)) ≡ₚ listed_for B (tasks w).
Proof.
  intros Hnot.
  assert (Hsame : forall k t, userId t = B ->
            (tasks w !! k = Some t <-> tasks (serve reqs w) !! k = Some t)).
  { revert w. induction reqs as [| [[r env] req] rest IH]; intros w k t Ht;
      [reflexivity |].
    simpl. rewrite <- IH; [| | exact Ht].
    - apply (app_keeps_tasks_of B); [| exact Ht].
      intros u Hu. apply (Hnot r env req u); [left | exact Hu].
    - intros r' env' req' u' Hin. apply (Hnot r' env' req' u'). now right. }
  split; [exact Hsame |]. now apply listed_for_Permutation.
Qed.

(** X5: the owner of a task never changes: whatever requests are served, a
    task found under an [_id] that held a task before has the same owner. *)
Theorem ownership_never_transferred (reqs : list (Route * Env * Request))
    (w : World) (k : N) (t t' : Task) :
  World_ok w ->
  tasks w !! k = Some t ->
  tasks (serve reqs w) !! k = Some t' ->
  userId t' = userId t.
Proof.
  intros Hok Hk.
  assert (Hlt : (k < oidCounter w)%N) by (apply Hok; eauto).
  assert (Hown : forall t0, tasks w !! k = Some t0 -> userId t0 = userId t)
    by (intros t0 Ht0; congruence).
  clear Hk. revert w Hok Hlt Hown.
  induction reqs as [| [[r env] req] rest IH]; intros w Hok Hlt Hown; [apply Hown |].
  simpl. apply IH.
  - now apply app_World_ok.
  - pose proof (app_oidCounter_mono r env req w). lia.
  - intros t0.
    destruct (app_tasks_step r env req w)
      as [-> | (u & oid & Hu & [Hpost | [Hdel | Hput]])]; [apply Hown | | |].
    + destruct Hpost as (_ & -> & _ & t1 & _ & _ & ->).
      rewrite lookup_insert_ne by lia. apply Hown.
    + destruct Hdel as (_ & _ & t1 & _ & _ & _ & ->).
      rewrite lookup_delete_Some. intros [_ Hk]. now apply Hown.
    + destruct Hput as (_ & _ & t1 & t2 & Ht1 & _ & Hsame & _ & ->).
      rewrite lookup_insert_Some. intros [[<- <-] | [_ Hk]]; [| now apply Hown].
      rewrite Hsame. now apply Hown.
Qed.

(** X6: a task that appears under an [_id] that held none is the work of a
    POST /tasks answered 201: it sits under the [_id] the generator issued,
    it is the task of the response, and its owner is the user of the
    request's token. *)
Theorem new_task_belongs_to_caller (r : Route) (env : Env) (req : Request)
    (w : World) (k : N) (t : Task) :
  tasks w !! k = None ->
  tasks (app r env req w).2 !! k = Some t ->
  r = POST_tasks /\ k = oidCounter w /\
  (app r env req w).1 =
    mkResponse 201 (TaskBody "Task added successfully" (k, t)) /\
  exists u, authenticated env req u /\ userId t = claim_userId u.
Proof.
  intros Hnone Hnew.
  destruct (app_tasks_step r env req w)
    as [Heq | (u & oid & Hu & [Hpost | [Hdel | Hput]])].
  - rewrite Heq in Hnew. congruence.
  - destruct Hpost as (-> & -> & _ & t0 & Hcast & Hres & Heq).
    rewrite Heq in Hnew. apply lookup_insert_Some in Hnew.
    destruct Hnew as [[<- <-] | [_ Hk]]; [| congruence].
    apply Task_cast_Some in Hcast. destruct Hcast as (_ & _ & _ & Hown).
    repeat split; auto. eauto.
  - destruct Hdel as (_ & _ & t0 & _ & _ & _ & Heq).
    rewrite Heq in Hnew. apply lookup_delete_Some in Hnew. destruct Hnew. congruence.
  - destruct Hput as (_ & _ & t0 & t1 & Ht0 & _ & _ & _ & Heq).
    rewrite Heq in Hnew. apply lookup_insert_Some in Hnew.
    destruct Hnew as [[<- _] | [_ Hk]]; congruence.
Qed.

(** ** Responses *)

Ltac split_matches :=
  repeat match goal with
         | |- context [match ?x with _ => _ end] => destruct x
         end.

Ltac in_codes := simpl; repeat first [left; reflexivity | right].

Ltac response_shape :=
  clear; split_matches; do 2 eexists; (split; [reflexivity |]);
  solve [ left; split; [in_codes | intros ?; discriminate]
        | right; split; [in_codes | eexists; reflexivity] ].

Lemma app_response_shape r env req w :
  exists code b,
    (app r env req w).1 = mkResponse code b /\
    ((In code [200; 201]%nat /\ forall msg, b <> ErrorBody msg) \/
     (In code [400; 401; 403; 404; 500]%nat /\ exists msg, b = ErrorBody msg)).
Proof.
  assert (Hauth : forall h : Request -> Handler,
            (forall u, exists code b,
               (h (set_user req u) w).1 = mkResponse code b /\
               ((In code [200; 201]%nat /\ forall msg, b <> ErrorBody msg) \/
                (In code [400; 401; 403; 404; 500]%nat /\
                 exists msg, b = ErrorBody msg))) ->
            exists code b,
              (authenticateJWT env h req w).1 = mkResponse code b /\
              ((In code [200; 201]%nat /\ forall msg, b <> ErrorBody msg) \/
               (In code [400; 401; 403; 404; 500]%nat /\
                exists msg, b = ErrorBody msg))).
  { intros h Hh.
    destruct (authenticateJWT_cases env h req w)
      as [(code & msg & Hcode & ->) | (u & _ & ->)]; [| apply Hh].
    exists code, (ErrorBody msg). split; [reflexivity |].
    right. split; [destruct Hcode as [-> | ->]; in_codes | eauto]. }
  destruct r; simpl.
  - rewrite post_register_eq. response_shape.
  - rewrite post_login_eq. response_shape.
  - apply Hauth. intros u. rewrite post_tasks_eq. response_shape.
  - apply Hauth. intros u. rewrite get_tasks_eq. response_shape.
  - apply Hauth. intros u. rewrite delete_tasks_id_eq. response_shape.
  - apply Hauth. intros u. rewrite put_tasks_id_eq. response_shape.
Qed.

(** X7: whatever the route and the request, the status is one of 200, 201,
    400, 401, 403, 404 and 500, and the body is an [{ error }] object
    exactly when the status is 400 or above. *)
Theorem errors_carry_an_error_body (r : Route) (env : Env) (req : Request)
    (w : World) :
  In (statusCode (app r env req w).1) [200; 201; 400; 401; 403; 404; 500]%nat /\
  ((exists msg, json (app r env req w).1 = ErrorBody msg) <->
   (400 <= statusCode (app r env req w).1)%nat).
Proof.
  destruct (app_response_shape r env req w)
    as (code & b & -> & [[Hcode Hbody] | [Hcode Hbody]]); simpl in *.
  - split; [tauto |]. split.
    + intros [msg Hmsg]. now apply Hbody in Hmsg.
    + intros Hge. lia.
  - split; [tauto |]. split.
    + intros _. lia.
    + intros _. exact Hbody.
Qed.

(** X8: a request answered with status 400 or above has changed neither
    collection: every user and every task is as before. *)
Theorem failed_requests_change_nothing (r : Route) (env : Env) (req : Request)
    (w : World) :
  (400 <= statusCode (app r env req w).1)%nat ->
  users (app r env req w).2 = users w /\ tasks (app r env req w).2 = tasks w.
Proof.
  intros Hfail. split.
  - destruct (app_users_step r env req w) as [Heq | (_ & u & _ & _ & Hres & _)];
      [exact Heq |].
    rewrite Hres in Hfail. simpl in Hfail. lia.
  - destruct (app_tasks_step r env req w)
      as [Heq | (u & oid & _ & [Hpost | [Hdel | Hput]])]; [exact Heq | | |].
    + destruct Hpost as (_ & _ & _ & t & _ & Hres & _).
      rewrite Hres in Hfail. simpl in Hfail. lia.
    + destruct Hdel as (_ & _ & t & _ & _ & Hres & _).
      rewrite Hres in Hfail. simpl in Hfail. lia.
    + destruct Hput as (_ & _ & t & t' & _ & _ & _ & Hres & _).
      rewrite Hres in Hfail. simpl in Hfail. lia.
Qed.

(** X9: POST /login and GET /tasks leave the whole store as it was;
    POST /register never touches a task; and no route but POST /register
    touches the users collection. *)
Theorem routes_keep_to_their_collection (r : Route) (env : Env) (req : Request)
    (w : World) :
  (r = POST_login \/ r = GET_tasks -> (app r env req w).2 = w) /\
  (r = POST_register -> tasks (app r env req w).2 = tasks w) /\
  (r <> POST_register -> users (app r env req w).2 = users w).
Proof.
  split; [| split].
  - intros [-> | ->]; simpl.
    + rewrite post_login_eq. repeat case_match; reflexivity.
    + destruct (authenticateJWT_cases env get_tasks req w)
        as [(code & msg & _ & ->) | (u & _ & ->)]; [reflexivity |].
      now rewrite get_tasks_eq.
  - intros ->.
    destruct (app_tasks_step POST_register env req w)
      as [Heq | (u & oid & _ & [Hc | [Hc | Hc]])]; [exact Heq | | |];
      destruct Hc as (Hr & _); discriminate.
  - intros Hr.
    destruct (app_users_step r env req w) as [Heq | (-> & _)]; [exact Heq |].
    contradiction.
Qed.

(** X10: with a valid token GET /tasks answers 200 with exactly the tasks
    the store holds for the token's user, each listed once. *)
Theorem get_tasks_lists_exactly_own (env : Env) (req : Request) (u : Claims)
    (w : World) :
  authenticated env req u ->
  exists l,
    app GET_tasks env req w = (mkResponse 200 (TasksBody l), w) /\
    NoDup l /\
    forall k t, (k, t) ∈ l <-> tasks w !! k = Some t /\ userId t = claim_userId u.
Proof.
  intros Hu. exists (listed_for (claim_userId u) (tasks w)). split; [| split].
  - simpl. rewrite (authenticated_next _ _ _ _ _ Hu). apply get_tasks_eq.
  - apply NoDup_listed_for.
  - intros k t. apply listed_for_elem.
Qed.

(** X11: after a DELETE /tasks/:id answered 200 the task is gone and every
    other task is as before; a second DELETE on that id, with any valid
    token, is answered 404, and a PUT on it is answered 404 when its fields
    are all present; neither changes the store. *)
Theorem deleted_task_is_gone (env env' : Env) (req req' : Request)
    (u u' : Claims) (w w1 : World) (res : Response) (oid : N) :
  authenticated env req u ->
  castObjectId (params_id req) = Some oid ->
  app DELETE_tasks_id env req w = (res, w1) ->
  statusCode res = 200%nat ->
  authenticated env' req' u' ->
  castObjectId (params_id req') = Some oid ->
  tasks w1 = delete oid (tasks w) /\
  users w1 = users w /\
  app DELETE_tasks_id env' req' w1 =
    (mkResponse 404 (ErrorBody "Task not found or not authorized to delete it"), w1) /\
  (all_fields req' = true ->
   app PUT_tasks_id env' req' w1 =
     (mkResponse 404 (ErrorBody "Task not found or not authorized to update it"), w1)).
Proof.
  intros Hu Hid Hrun Hcode Hu' Hid'. simpl in *.
  rewrite (authenticated_next _ _ _ _ _ Hu), delete_tasks_id_eq, Hid in Hrun.
  rewrite !(authenticated_next _ _ _ _ _ Hu'), delete_tasks_id_eq, put_tasks_id_eq, Hid'.
  destruct (tasks w !! oid) as [t |];
    [| injection Hrun as <- <-; discriminate].
  destruct (decide (userId t = claim_userId u));
    [| injection Hrun as <- <-; discriminate].
  injection Hrun as <- <-. simpl. rewrite lookup_delete_eq.
  repeat split; auto. now intros ->.
Qed.

(** X12: a PUT /tasks/:id answered 200 can be repeated: the same request
    is then answered with the same response and leaves the store as the
    first one left it. *)
Theorem put_is_idempotent (env : Env) (req : Request) (u : Claims)
    (w w1 : World) (res : Response) :
  authenticated env req u ->
  app PUT_tasks_id env req w = (res, w1) ->
  statusCode res = 200%nat ->
  app PUT_tasks_id env req w1 = (res, w1).
Proof.
  intros Hu Hrun Hcode. simpl in *.
  rewrite (authenticated_next _ _ _ _ _ Hu), put_tasks_id_eq in Hrun.
  rewrite (authenticated_next _ _ _ _ _ Hu), put_tasks_id_eq.
  destruct (all_fields req); [| injection Hrun as <- <-; discriminate].
  destruct (castObjectId (params_id req)) as [oid |];
    [| injection Hrun as <- <-; discriminate].
  destruct (tasks w !! oid) as [t |] eqn:Ht;
    [| injection Hrun as <- <-; discriminate].
  destruct (decide (userId t = claim_userId u)) as [Hown |];
    [| injection Hrun as <- <-; discriminate].
  destruct (Task_cast _ _ _ (userId t)) as [t' |] eqn:Hcast;
    [| injection Hrun as <- <-; discriminate].
  injection Hrun as <- <-. simpl. rewrite lookup_insert_eq.
  pose proof Hcast as Hsame. apply Task_cast_Some in Hsame.
  destruct Hsame as (_ & _ & _ & Hsame).
  rewrite decide_True by congruence. rewrite Hsame, Hcast.
  unfold set_tasks. simpl. now rewrite insert_insert_eq.
Qed.

(** X13: a route parameter that is no ObjectId makes the lookup throw:
    with a valid token DELETE /tasks/:id, and PUT /tasks/:id with all
    fields present, are answered 500, not 404, and change nothing. *)
Theorem malformed_id_is_500 (env : Env) (req : Request) (u : Claims) (w : World) :
  authenticated env req u ->
  castObjectId (params_id req) = None ->
  app DELETE_tasks_id env req w =
    (mkResponse 500 (ErrorBody "An error occurred while deleting the task"), w) /\
  (all_fields req = true ->
   app PUT_tasks_id env req w =
     (mkResponse 500 (ErrorBody "An error occurred while updating the task"), w)).
Proof.
  intros Hu Hid. simpl.
  rewrite !(authenticated_next _ _ _ _ _ Hu), delete_tasks_id_eq, put_tasks_id_eq, Hid.
  split; [reflexivity | now intros ->].
Qed.

(** ** Registration, login and the middleware together *)

Lemma find_username_insert_fresh name digest (m : gmap N User) k :
  find_username name m = None -> m !! k = None ->
  find_username name (<[k := mkUser name digest]> m) = Some (k, mkUser name digest).
Proof.
  intros Hnone Hfresh.
  destruct (find_username_is_Some name (<[k := mkUser name digest]> m) k
              (mkUser name digest)) as [[k' u'] Hfound];
    [apply lookup_insert_eq | reflexivity |].
  rewrite Hfound. apply find_username_Some in Hfound.
  destruct Hfound as [Hk' Hname]. apply lookup_insert_Some in Hk'.
  destruct Hk' as [[<- <-] | [_ Hold]]; [reflexivity |].
  exfalso. exact (proj1 (find_username_None _ _) Hnone k' u' Hold Hname).
Qed.

Lemma post_login_found env req w name pw uid u :
  name <> EmptyString -> pw <> EmptyString ->
  field req "username" = JStr name ->
  field req "password" = JStr pw ->
  find_username name (users w) = Some (uid, u) ->
  post_login env req w =
    if checkpw pw (password u) then
      match jws_encode JWT_SECRET (mkClaims uid (now env) (now env + one_hour)) with
      | Some tok => (mkResponse 200 (TokenBody tok), w)
      | None => (mkResponse 500 (ErrorBody "An error occurred during login"), w)
      end
    else (mkResponse 400 (ErrorBody "Invalid username or password"), w).
Proof.
  intros Hn Hp Hu Hpw Hf. unfold post_login.
  rewrite credentials_guard by (rewrite ?Hu, ?Hpw; now apply truthy_JStr).
  rewrite Hu, Hpw.
  unfold try_catch, bind, User_findOne, bcrypt_compare, jwt_sign, ret.
  simpl. rewrite Hf. destruct u as [uname upass]. simpl.
  destruct (checkpw pw upass); [| reflexivity].
  simpl. now destruct (jws_encode _ _).
Qed.

(** X14: registration, login and the middleware fit together. After a
    successful registration, a login with the same username and password
    (which bcrypt compares equal to its own digest) is answered 200 with a
    token, and a request carrying "Bearer " and that token within the hour
    is authenticated as the user document the registration stored. *)
Theorem registered_user_can_sign_in (env env' env'' : Env) (req : Request)
    (w : World) (name pw : string) :
  World_ok w ->
  JWT_SECRET <> EmptyString ->
  name <> EmptyString -> pw <> EmptyString ->
  field req "username" = JStr name ->
  field req "password" = JStr pw ->
  (forall k u, users w !! k = Some u -> username u <> name) ->
  checkpw pw (hashpw (salt env) 10 pw) = true ->
  now env'' < now env' + 3600 ->
  exists w1 tok,
    app POST_register env req w =
      (mkResponse 201 (MessageBody "Registration successful!"), w1) /\
    app POST_login env' req w1 = (mkResponse 200 (TokenBody tok), w1) /\
    users w1 !! oidCounter w = Some (mkUser name (hashpw (salt env) 10 pw)) /\
    (forall req', authorization req' = Some ("Bearer " ++ tok) ->
       exists u, authenticated env'' req' u /\ claim_userId u = oidCounter w).
Proof.
  intros Hok Hsecret Hn Hp Hu Hpw Hnone Hcheck Hclock.
  destruct (World_ok_fresh w Hok) as [Hfresh _].
  apply find_username_None in Hnone.
  destruct (jws_encode_secret JWT_SECRET
              (mkClaims (oidCounter w) (now env') (now env' + one_hour)) Hsecret)
    as [tok Henc].
  eexists. exists tok. simpl. split; [| split; [| split]].
  - apply (post_register_created env req w name pw); assumption.
  - rewrite (post_login_found env' req _ name pw (oidCounter w)
               (mkUser name (hashpw (salt env) 10 pw)) Hn Hp Hu Hpw).
    + simpl. now rewrite Hcheck, Henc.
    + simpl. now apply find_username_insert_fresh.
  - simpl. apply lookup_insert_eq.
  - intros req' Hh. apply jws_decode_encode in Henc.
    exists (mkClaims (oidCounter w) (now env') (now env' + one_hour)).
    split; [| reflexivity].
    exists ("Bearer " ++ tok). rewrite String_replace_Bearer.
    split; [exact Hh |]. split.
    + now apply jws_decode_shape in Henc.
    + apply jwt_verify_inr. split; [exact Henc |]. simpl. unfold one_hour. lia.
Qed.


(** X16: tasks are not deduplicated: two POST /tasks with accepted fields,
    even with the same body, are each answered 201 and create two tasks
    under consecutive [_id]s, and the next GET /tasks lists both. *)
Theorem post_twice_creates_two_tasks (env1 env2 env3 : Env)
    (req1 req2 req3 : Request) (u1 u2 u3 : Claims) (w : World) (t1 t2 : Task) :
  World_ok w ->
  authenticated env1 req1 u1 -> authenticated env2 req2 u2 ->
  authenticated env3 req3 u3 ->
  claim_userId u2 = claim_userId u1 -> claim_userId u3 = claim_userId u1 ->
  all_fields req1 = true -> all_fields req2 = true ->
  Task_cast (field req1 "title") (field req1 "status")
    (field req1 "completionDate") (claim_userId u1) = Some t1 ->
  Task_cast (field req2 "title") (field req2 "status")
    (field req2 "completionDate") (claim_userId u1) = Some t2 ->
  let oid := oidCounter w in
  exists w1 w2 l,
    app POST_tasks env1 req1 w =
      (mkResponse 201 (TaskBody "Task added successfully" (oid, t1)), w1) /\
    app POST_tasks env2 req2 w1 =
      (mkResponse 201 (TaskBody "Task added successfully" (N.succ oid, t2)), w2) /\
    app GET_tasks env3 req3 w2 = (mkResponse 200 (TasksBody l), w2) /\
    (oid, t1) ∈ l /\ (N.succ oid, t2) ∈ l.
Proof.
  intros Hok Ha1 Ha2 Ha3 Hu2 Hu3 Hall1 Hall2 Hc1 Hc2 oid.
  destruct (World_ok_fresh w Hok) as [_ Hfresh]. fold oid in Hfresh.
  pose proof (World_ok_new_task w t1 Hok) as Hok1.
  destruct (World_ok_fresh _ Hok1) as [_ Hfresh1]. simpl in Hfresh1. fold oid in Hfresh1.
  pose proof Hc1 as Hown1. apply Task_cast_Some in Hown1.
  destruct Hown1 as (_ & _ & _ & Hown1).
  pose proof Hc2 as Hown2. apply Task_cast_Some in Hown2.
  destruct Hown2 as (_ & _ & _ & Hown2).
  do 3 eexists. simpl.
  rewrite (authenticated_next _ _ _ _ _ Ha1), post_tasks_eq, Hall1, Hc1.
  fold oid. rewrite Hfresh.
  split; [reflexivity |].
  rewrite (authenticated_next _ _ _ _ _ Ha2), post_tasks_eq, Hall2, Hu2, Hc2.
  simpl. fold oid. rewrite Hfresh1.
  split; [reflexivity |].
  rewrite (authenticated_next _ _ _ _ _ Ha3), get_tasks_eq.
  split; [reflexivity |]. rewrite Hu3. simpl. split.
  - apply listed_for_elem. split; [| exact Hown1].
    rewrite lookup_insert_ne by lia. apply lookup_insert_eq.
  - apply listed_for_elem. split; [| exact Hown2]. apply lookup_insert_eq.
Qed.

End Further.
(** ** The claims on the concrete run *)

Module Run.
Import Scenario.

#[local] Existing Instance ref_bcrypt.
#[local] Existing Instance ref_jws.
#[local] Existing Instance ref_casts.
#[local] Existing Instance ref_env.

Lemma alice_signed_in id l :
  authenticated boot (with_token alice_token id l) alice_claims.
Proof.
  exists ("Bearer " ++ alice_token).
  split; [reflexivity | split; [vm_compute; discriminate | vm_compute; reflexivity]].
Qed.

Lemma bob_signed_in id l :
  authenticated boot (with_token bob_token id l) bob_claims.
Proof.
  exists ("Bearer " ++ bob_token).
  split; [reflexivity | split; [vm_compute; discriminate | vm_compute; reflexivity]].
Qed.

Lemma world_both_ok : World_ok world_both.
Proof. do 2 apply app_World_ok. apply empty_world_ok. Qed.

Lemma world_task_ok : World_ok world_task.
Proof. apply app_World_ok, world_both_ok. Qed.

Lemma no_user_at_boot (name : string) (k : N) (u : User) :
  users empty_world !! k = Some u -> username u <> name.
Proof. intros Hk. vm_compute in Hk. discriminate. Qed.

Lemma no_task_before_post (uid k : N) (t : Task) :
  tasks world_both !! k = Some t -> userId t <> uid.
Proof. intros Hk. vm_compute in Hk. discriminate. Qed.

Example scenario_users :
  map_to_list (users world_both) =
    [(1%N, mkUser "bob" "$2a$10$NaClbuilder");
     (0%N, mkUser "alice" "$2a$10$NaClwonderland")].
Proof. vm_compute. reflexivity. Qed.

Example scenario_task : tasks world_task !! 2%N = Some the_task.
Proof. vm_compute. reflexivity. Qed.

Example scenario_task_id : castObjectId task_id = Some 2%N.
Proof. vm_compute. reflexivity. Qed.

Lemma C2_witness :
  task_handler GET_tasks = Some get_tasks /\
  run GET_tasks boot alice_get world_task =
    get_tasks (set_user alice_get alice_claims) world_task.
Proof.
  split; [reflexivity |].
  destruct (C2_authentication_gate GET_tasks get_tasks boot alice_get world_task eq_refl)
    as (_ & _ & Haccept).
  apply (Haccept alice_token alice_claims).
  - reflexivity.
  - discriminate.
  - vm_compute. reflexivity.
  - vm_compute. reflexivity.
Defined.

Lemma C4_witness :
  World_ok empty_world /\
  run POST_register boot alice_signup empty_world =
    (mkResponse 201 (MessageBody "Registration successful!"), world_alice) /\
  run POST_register boot alice_signup world_alice =
    (mkResponse 400 (ErrorBody "Username already exists"), world_alice).
Proof.
  destruct (C4_register_then_duplicate boot boot alice_signup alice_signup
              empty_world "alice" "wonderland") as (Hfirst & _ & _ & _ & Hsecond).
  - exact empty_world_ok.
  - discriminate.
  - discriminate.
  - reflexivity.
  - reflexivity.
  - apply no_user_at_boot.
  - reflexivity.
  - split; [exact empty_world_ok |]. split; [exact Hfirst |]. apply Hsecond. reflexivity.
Defined.

Lemma C5_witness :
  exists tok,
    run POST_login boot alice_signup world_both =
      (mkResponse 200 (TokenBody tok), world_both) /\
    (exists c, jwt_verify (mkEnv 4599 EmptyString) tok JWT_SECRET = inr c /\ claim_userId c = 0%N) /\
    jwt_verify (mkEnv 4600 EmptyString) tok JWT_SECRET = inl TokenExpiredError.
Proof.
  destruct (C5_token_lifetime boot alice_signup world_both "alice" "wonderland" 0%N
              (mkUser "alice" "$2a$10$NaClwonderland")) as (Htoken & Hlife).
  - discriminate.
  - discriminate.
  - reflexivity.
  - reflexivity.
  - vm_compute. reflexivity.
  - vm_compute. reflexivity.
  - destruct Htoken as [tok Hrun]; [discriminate |].
    exists tok. split; [exact Hrun |]. split.
    + apply (Hlife tok world_both Hrun (mkEnv 4599 EmptyString)). simpl. lia.
    + apply (Hlife tok world_both Hrun (mkEnv 4600 EmptyString)). simpl. lia.
Defined.


Lemma C9_witness :
  body alice_get !! "title" = None /\
  run POST_tasks boot alice_get world_both =
    (mkResponse 400 (ErrorBody "Please provide all fields"), world_both).
Proof.
  split; [vm_compute; reflexivity |].
  destruct (C9_missing_fields boot alice_get world_both "title") as [Htasks _].
  - vm_compute. reflexivity.
  - apply (Htasks (or_introl eq_refl) alice_claims (alice_signed_in EmptyString [])).
Defined.

Lemma C1_witness :
  run DELETE_tasks_id boot bob_put world_task =
    (mkResponse 404 (ErrorBody "Task not found or not authorized to delete it"),
     world_task) /\
  run PUT_tasks_id boot bob_put world_task =
    (mkResponse 404 (ErrorBody "Task not found or not authorized to update it"),
     world_task).
Proof.
  destruct (C1_owner_isolation 0%N 1%N boot bob_put bob_claims world_task 2%N the_task)
    as (_ & Hdelete & Hput).
  - discriminate.
  - apply bob_signed_in.
  - reflexivity.
  - vm_compute. reflexivity.
  - reflexivity.
  - vm_compute. reflexivity.
  - split; [exact Hdelete | exact Hput].
Defined.

Lemma C7_witness :
  exists w',
    run PUT_tasks_id boot alice_put world_task =
      (mkResponse 200 (TaskBody "Task updated successfully"
                         (2%N, mkTask "x" "done" 1704067200000 0)), w') /\
    tasks w' = <[2%N := mkTask "x" "done" 1704067200000 0]> (tasks world_task) /\
    users w' = users world_task.
Proof.
  exists (run PUT_tasks_id boot alice_put world_task).2.
  assert (Hrun : run PUT_tasks_id boot alice_put world_task =
            (mkResponse 200 (TaskBody "Task updated successfully"
                               (2%N, mkTask "x" "done" 1704067200000 0)),
             (run PUT_tasks_id boot alice_put world_task).2)).
  { vm_compute. reflexivity. }
  destruct (C7_put_frame boot alice_put alice_claims world_task _ _
              (alice_signed_in _ _) Hrun eq_refl)
    as (oid & t & t' & Hid & _ & _ & Hres & _ & _ & _ & _ & _ & _ & Htasks & _ & _ & Husers & _).
  injection Hres as <- <-.
  split; [exact Hrun | split; [exact Htasks | exact Husers]].
Defined.

Lemma C3_witness :
  exists w1 w2 w3,
    run POST_tasks boot alice_post world_both =
      (mkResponse 201 (TaskBody "Task added successfully" (2%N, the_task)), w1) /\
    run GET_tasks boot alice_get w1 =
      (mkResponse 200 (TasksBody [(2%N, the_task)]), w1) /\
    run PUT_tasks_id boot alice_put w1 =
      (mkResponse 200 (TaskBody "Task updated successfully"
                         (2%N, mkTask "x" "done" 1704067200000 0)), w2) /\
    run GET_tasks boot alice_get w2 =
      (mkResponse 200 (TasksBody [(2%N, mkTask "x" "done" 1704067200000 0)]), w2) /\
    run DELETE_tasks_id boot alice_delete w2 =
      (mkResponse 200 (MessageBody "Task deleted successfully"), w3) /\
    run GET_tasks boot alice_get w3 = (mkResponse 200 (TasksBody []), w3).
Proof.
  destruct (C3_task_round_trip 0%N boot boot boot boot
              alice_post alice_get alice_put alice_delete
              alice_claims alice_claims alice_claims alice_claims
              world_both the_task (mkTask "x" "done" 1704067200000 0))
    as (w1 & w2 & w3 & H1 & H2 & _ & _ & _ & _ & H3 & H4 & _ & H5 & H6).
  - exact world_both_ok.
  - apply no_task_before_post.
  - apply alice_signed_in.
  - reflexivity.
  - apply alice_signed_in.
  - reflexivity.
  - apply alice_signed_in.
  - reflexivity.
  - apply alice_signed_in.
  - reflexivity.
  - vm_compute. reflexivity.
  - vm_compute. reflexivity.
  - vm_compute. reflexivity.
  - vm_compute. reflexivity.
  - vm_compute. reflexivity.
  - vm_compute. reflexivity.
  - exists w1, w2, w3. repeat split; assumption.
Defined.

(** Against C1 without a condition on the body: Bob's PUT on Alice's task
    with an empty body is answered 400, not 404. *)
Lemma C1_counterexample :
  ~ (forall (A B : N) (env : Env) (req : Request) (u : Claims) (w : World)
            (oid : N) (t : Task),
        A <> B -> authenticated env req u -> claim_userId u = B ->
        tasks w !! oid = Some t -> userId t = A ->
        castObjectId (params_id req) = Some oid ->
        statusCode (run PUT_tasks_id env req w).1 = 404%nat).
Proof.
  intros Hclaim.
  assert (Hcode : statusCode (run PUT_tasks_id boot bob_put_no_body world_task).1
                  = 404%nat).
  { apply (Hclaim 0%N 1%N boot bob_put_no_body bob_claims world_task 2%N the_task).
    - discriminate.
    - apply bob_signed_in.
    - reflexivity.
    - vm_compute. reflexivity.
    - reflexivity.
    - vm_compute. reflexivity. }
  vm_compute in Hcode. discriminate.
Qed.

(** Against C3 for every present title, status and completionDate: when
    the date is a boolean, POST /tasks is answered 500 and the next GET
    lists no task. *)
Lemma C3_counterexample :
  ~ (forall (env : Env) (req_post req_get : Request) (u : Claims) (w : World),
        World_ok w ->
        authenticated env req_post u -> authenticated env req_get u ->
        (forall k t, tasks w !! k = Some t -> userId t <> claim_userId u) ->
        all_fields req_post = true ->
        exists d, (run GET_tasks env req_get (run POST_tasks env req_post w).2).1 =
                    mkResponse 200 (TasksBody [d])).
Proof.
  intros Hclaim.
  destruct (Hclaim boot alice_post_bool_date alice_get alice_claims world_both)
    as [d Hd].
  - exact world_both_ok.
  - apply alice_signed_in.
  - apply alice_signed_in.
  - apply no_task_before_post.
  - reflexivity.
  - vm_compute in Hd. discriminate.
Qed.

(** Against C4 for every username: registering the empty username with a
    non-empty password on a store without users is answered 400, not 201. *)
Lemma C4_counterexample :
  ~ (forall (env : Env) (req : Request) (w : World) (name pw : string),
        World_ok w ->
        field req "username" = JStr name ->
        field req "password" = JStr pw -> pw <> EmptyString ->
        (forall k u, users w !! k = Some u -> username u <> name) ->
        statusCode (run POST_register env req w).1 = 201%nat).
Proof.
  intros Hclaim.
  assert (Hcode : statusCode (run POST_register boot empty_name_signup empty_world).1
                  = 201%nat).
  { apply (Hclaim boot empty_name_signup empty_world EmptyString "wonderland").
    - exact empty_world_ok.
    - reflexivity.
    - reflexivity.
    - discriminate.
    - apply no_user_at_boot. }
  vm_compute in Hcode. discriminate.
Qed.

(** A password that is not a string makes [bcrypt.compare] reject: the
    login of a known user falls to the [catch] block, that of an unknown
    user is turned away before the comparison. *)
Example login_number_password :
  run POST_login boot
    (mkRequest None EmptyString
       (json_body [("username", JStr "alice"); ("password", JNum 12345)]) None)
    world_both =
    (mkResponse 500 (ErrorBody "An error occurred during login"), world_both) /\
  run POST_login boot
    (mkRequest None EmptyString
       (json_body [("username", JStr "mallory"); ("password", JNum 12345)]) None)
    world_both =
    (mkResponse 400 (ErrorBody "Invalid username or password"), world_both).
Proof. split; vm_compute; reflexivity. Qed.

Example C3_bool_date_run :
  run POST_tasks boot alice_post_bool_date world_both =
    (mkResponse 500 (ErrorBody "An error occurred while adding the task"),
     mkWorld (users world_both) (tasks world_both) 3%N).
Proof. vm_compute. reflexivity. Qed.

End Run.

(** ** The further properties on the concrete run *)

Module RunFurther.
Import Scenario.

#[local] Existing Instance ref_bcrypt.
#[local] Existing Instance ref_jws.
#[local] Existing Instance ref_casts.
#[local] Existing Instance ref_env.

Definition done : Task := mkTask "x" "done" 1704067200000 0.

Definition carol_signup : Request := credentials "carol" "looking-glass".

Lemma authenticated_functional env req u u' :
  authenticated env req u -> authenticated env req u' -> u = u'.
Proof.
  intros (h & Hh & _ & Hv) (h' & Hh' & _ & Hv'). congruence.
Qed.

Lemma empty_world_unique : Usernames_unique empty_world.
Proof. intros k1 k2 u1 u2 Hk1. vm_compute in Hk1. discriminate. Qed.

Lemma users_are_permanent_witness :
  users (serve [(POST_register, boot, carol_signup); (DELETE_tasks_id, boot, bob_put)]
           world_task) !! 0%N = Some (mkUser "alice" "$2a$10$NaClwonderland") /\
  run POST_register boot alice_signup
      (serve [(POST_register, boot, carol_signup); (DELETE_tasks_id, boot, bob_put)]
         world_task) =
    (mkResponse 400 (ErrorBody "Username already exists"),
     serve [(POST_register, boot, carol_signup); (DELETE_tasks_id, boot, bob_put)]
       world_task).
Proof.
  apply (users_are_permanent
           [(POST_register, boot, carol_signup); (DELETE_tasks_id, boot, bob_put)]
           world_task 0%N (mkUser "alice" "$2a$10$NaClwonderland") boot alice_signup).
  - vm_compute. reflexivity.
  - reflexivity.
  - reflexivity.
  - reflexivity.
Defined.

Lemma serve_keeps_invariants_witness :
  World_ok (serve [(POST_register, boot, alice_signup);
                   (POST_register, boot, alice_signup);
                   (POST_register, boot, bob_signup)] empty_world) /\
  Usernames_unique (serve [(POST_register, boot, alice_signup);
                           (POST_register, boot, alice_signup);
                           (POST_register, boot, bob_signup)] empty_world).
Proof.
  apply serve_keeps_invariants.
  - exact empty_world_ok.
  - exact empty_world_unique.
Defined.

Lemma task_changed_only_by_owner_witness :
  tasks world_task !! 2%N = Some the_task /\
  castObjectId (params_id alice_delete) = Some 2%N /\
  statusCode (run DELETE_tasks_id boot alice_delete world_task).1 = 200%nat.
Proof.
  split; [vm_compute; reflexivity |].
  destruct (task_changed_only_by_owner DELETE_tasks_id boot alice_delete world_task
              2%N the_task) as (_ & Hid & Hcode & _).
  - vm_compute. reflexivity.
  - vm_compute. discriminate.
  - split; [exact Hid | exact Hcode].
Defined.

Lemma others_cannot_touch_tasks_of_witness :
  tasks (serve [(PUT_tasks_id, boot, bob_put); (DELETE_tasks_id, boot, bob_put)]
           world_task) !! 2%N = Some the_task.
Proof.
  destruct (others_cannot_touch_tasks_of 0%N
              [(PUT_tasks_id, boot, bob_put); (DELETE_tasks_id, boot, bob_put)]
              world_task) as [Hsame _].
  - intros r env req u Hin Hu.
    assert (Hreq : env = boot /\ req = bob_put).
    { apply elem_of_cons in Hin. destruct Hin as [[= _ -> ->] | Hin]; [now split |].
      apply elem_of_cons in Hin. destruct Hin as [[= _ -> ->] | Hin]; [now split |].
      now apply elem_of_nil in Hin. }
    destruct Hreq as [-> ->].
    rewrite (authenticated_functional _ _ _ _ Hu (Run.bob_signed_in _ _)).
    discriminate.
  - apply (Hsame 2%N the_task eq_refl). vm_compute. reflexivity.
Defined.

Lemma ownership_never_transferred_witness :
  tasks (serve [(PUT_tasks_id, boot, alice_put)] world_task) !! 2%N = Some done /\
  userId done = userId the_task.
Proof.
  split; [vm_compute; reflexivity |].
  apply (ownership_never_transferred [(PUT_tasks_id, boot, alice_put)] world_task 2%N).
  - exact Run.world_task_ok.
  - vm_compute. reflexivity.
  - vm_compute. reflexivity.
Defined.

Lemma new_task_belongs_to_caller_witness :
  tasks world_both !! 2%N = None /\
  (run POST_tasks boot alice_post world_both).1 =
    mkResponse 201 (TaskBody "Task added successfully" (2%N, the_task)).
Proof.
  split; [vm_compute; reflexivity |].
  destruct (new_task_belongs_to_caller POST_tasks boot alice_post world_both
              2%N the_task) as (_ & _ & Hres & _).
  - vm_compute. reflexivity.
  - vm_compute. reflexivity.
  - exact Hres.
Defined.

Lemma failed_requests_change_nothing_witness :
  (400 <= statusCode (run PUT_tasks_id boot bob_put world_task).1)%nat /\
  users (run PUT_tasks_id boot bob_put world_task).2 = users world_task /\
  tasks (run PUT_tasks_id boot bob_put world_task).2 = tasks world_task.
Proof.
  assert (Hfail : (400 <= statusCode (run PUT_tasks_id boot bob_put world_task).1)%nat).
  { vm_compute. repeat constructor. }
  split; [exact Hfail |].
  exact (failed_requests_change_nothing PUT_tasks_id boot bob_put world_task Hfail).
Defined.

Lemma get_tasks_lists_exactly_own_witness :
  exists l,
    run GET_tasks boot alice_get world_task = (mkResponse 200 (TasksBody l), world_task) /\
    NoDup l /\
    forall k t, (k, t) ∈ l <-> tasks world_task !! k = Some t /\ userId t = 0%N.
Proof.
  exact (get_tasks_lists_exactly_own boot alice_get alice_claims world_task
           (Run.alice_signed_in _ _)).
Defined.

Lemma deleted_task_is_gone_witness :
  run DELETE_tasks_id boot alice_delete
      (run DELETE_tasks_id boot alice_delete world_task).2 =
    (mkResponse 404 (ErrorBody "Task not found or not authorized to delete it"),
     (run DELETE_tasks_id boot alice_delete world_task).2).
Proof.
  destruct (deleted_task_is_gone boot boot alice_delete alice_delete
              alice_claims alice_claims world_task
              (run DELETE_tasks_id boot alice_delete world_task).2
              (run DELETE_tasks_id boot alice_delete world_task).1 2%N)
    as (_ & _ & Hagain & _).
  - apply Run.alice_signed_in.
  - vm_compute. reflexivity.
  - apply surjective_pairing.
  - vm_compute. reflexivity.
  - apply Run.alice_signed_in.
  - vm_compute. reflexivity.
  - exact Hagain.
Defined.

Lemma put_is_idempotent_witness :
  run PUT_tasks_id boot alice_put (run PUT_tasks_id boot alice_put world_task).2 =
    run PUT_tasks_id boot alice_put world_task.
Proof.
  rewrite (surjective_pairing (run PUT_tasks_id boot alice_put world_task)) at 2.
  apply (put_is_idempotent boot alice_put alice_claims world_task).
  - apply Run.alice_signed_in.
  - apply surjective_pairing.
  - vm_compute. reflexivity.
Defined.

Lemma malformed_id_is_500_witness :
  run DELETE_tasks_id boot (with_token alice_token "not-an-id" []) world_task =
    (mkResponse 500 (ErrorBody "An error occurred while deleting the task"), world_task).
Proof.
  apply (malformed_id_is_500 boot (with_token alice_token "not-an-id" [])
           alice_claims world_task).
  - apply Run.alice_signed_in.
  - vm_compute. reflexivity.
Defined.

Lemma registered_user_can_sign_in_witness :
  exists w1 tok,
    run POST_register boot carol_signup world_both =
      (mkResponse 201 (MessageBody "Registration successful!"), w1) /\
    run POST_login (mkEnv 2000 "NaCl") carol_signup w1 =
      (mkResponse 200 (TokenBody tok), w1) /\
    forall req', authorization req' = Some ("Bearer " ++ tok) ->
      exists u, authenticated (mkEnv 5599 "NaCl") req' u /\ claim_userId u = 2%N.
Proof.
  destruct (registered_user_can_sign_in boot (mkEnv 2000 "NaCl") (mkEnv 5599 "NaCl")
              carol_signup world_both "carol" "looking-glass")
    as (w1 & tok & Hreg & Hlogin & _ & Hauth).
  - exact Run.world_both_ok.
  - discriminate.
  - discriminate.
  - discriminate.
  - reflexivity.
  - reflexivity.
  - apply find_username_None. vm_compute. reflexivity.
  - vm_compute. reflexivity.
  - simpl. lia.
  - exists w1, tok. split; [exact Hreg |]. split; [exact Hlogin | exact Hauth].
Defined.


Lemma post_twice_creates_two_tasks_witness :
  exists w1 w2 l,
    run POST_tasks boot alice_post world_both =
      (mkResponse 201 (TaskBody "Task added successfully" (2%N, the_task)), w1) /\
    run POST_tasks boot alice_post w1 =
      (mkResponse 201 (TaskBody "Task added successfully" (3%N, the_task)), w2) /\
    run GET_tasks boot alice_get w2 = (mkResponse 200 (TasksBody l), w2) /\
    (2%N, the_task) ∈ l /\ (3%N, the_task) ∈ l.
Proof.
  apply (post_twice_creates_two_tasks boot boot boot alice_post alice_post alice_get
           alice_claims alice_claims alice_claims world_both the_task the_task).
  - exact Run.world_both_ok.
  - apply Run.alice_signed_in.
  - apply Run.alice_signed_in.
  - apply Run.alice_signed_in.
  - reflexivity.
  - reflexivity.
  - vm_compute. reflexivity.
  - vm_compute. reflexivity.
  - vm_compute. reflexivity.
  - vm_compute. reflexivity.
Defined.

End RunFurther.
